(** * Push-notification relay (server.js): a shallow embedding

    The service reads a device token from the [profiles] table, builds a
    data-only Firebase Cloud Messaging message and hands it to
    [admin.messaging().send].  It is reached from the route
    [POST /api/notifications/send] and from the realtime subscription on
    the [notifications] table.

    Everything the program receives from outside (request bodies, feed
    payloads, profile rows) is parsed JSON.  The program itself adds
    [undefined] (absent properties), the members every plain object
    inherits from [Object.prototype], and the objects written as literals
    in the source. *)

From stdpp Require Import gmap strings list fin_maps pretty.

Local Open Scope string_scope.
Set Warnings "-register-all".

(** ** Values *)

(** Parsed JSON.  Numbers are kept as integers, identifiers and counters,
    within the range a JS number holds exactly (up to 2^53 in absolute
    value).  A JS string is the Rocq string of its UTF-8 bytes, as the
    literals of the source are written here; [code_units] below recovers
    its UTF-16 code units. *)
Inductive json : Type :=
| JNull
| JBool (b : bool)
| JNum (z : Z)
| JStr (s : string)
| JArr (l : list json)
| JObj (m : gmap string json).

(** What a plain object inherits: the [Object] constructor, the prototype
    object itself (through [__proto__]) and the prototype's methods. *)
Inductive native : Type :=
| NObject
| NObjectPrototype
| NMethod (name : string).

(** What a variable of the program can hold. *)
Inductive value : Type :=
| VUndefined
| VJson (j : json)
| VNative (n : native).

Definition VNull : value := VJson JNull.
Definition VStr (s : string) : value := VJson (JStr s).
Definition VBool (b : bool) : value := VJson (JBool b).

(** Objects built by object literals of the source: a property holds a
    value or another literal. *)
Inductive lit : Type :=
| LVal (v : value)
| LObj (fields : gmap string lit).

(** Thrown [Error] objects. *)
Record js_error : Type := mkError { name : string; message : string }.

Definition TypeError (msg : string) : js_error := mkError "TypeError" msg.

(** [Error.prototype.toString]: the name alone when the message is
    empty, the message alone when the name is empty. *)
Definition error_to_string (e : js_error) : string :=
  if String.eqb (name e) "" then message e
  else if String.eqb (message e) "" then name e
  else name e +:+ ": " +:+ message e.

(** ** Coercions *)

(** ToBoolean. *)
Definition truthy (v : value) : bool :=
  match v with
  | VUndefined => false
  | VJson JNull => false
  | VJson (JBool b) => b
  | VJson (JNum z) => negb (Z.eqb z 0)
  | VJson (JStr s) => negb (String.eqb s "")
  | VJson (JArr _) => true
  | VJson (JObj _) => true
  | VNative _ => true
  end.

(** [a || b], with [b] already evaluated (used where [b] has no effect). *)
Definition js_or (a b : value) : value := if truthy a then a else b.

(** ToString of parsed JSON; [None] is the TypeError "Cannot convert
    object to primitive value".  An array joins its elements with commas,
    [null] elements giving the empty string.  A plain object answers
    through the inherited [toString] unless an own property named
    [toString] (never callable in parsed JSON) hides it; the inherited
    [valueOf] returns the object itself, so no primitive is found. *)
Fixpoint json_to_string (j : json) : option string :=
  match j with
  | JNull => Some "null"
  | JBool true => Some "true"
  | JBool false => Some "false"
  | JNum z => Some (pretty z)
  | JStr s => Some s
  | JArr l =>
      let elt (x : json) : option string :=
        match x with
        | JNull => Some ""
        | _ => json_to_string x
        end in
      (fix join (l : list json) : option string :=
         match l with
         | [] => Some ""
         | [x] => elt x
         | x :: l' =>
             match elt x, join l' with
             | Some s, Some r => Some (s +:+ "," +:+ r)
             | _, _ => None
             end
         end) l
  | JObj m =>
      match m !! "toString" with
      | Some _ => None
      | None => Some "[object Object]"
      end
  end.

Definition native_to_string (n : native) : string :=
  match n with
  | NObject => "function Object() { [native code] }"
  | NObjectPrototype => "[object Object]"
  | NMethod f => "function " +:+ f +:+ "() { [native code] }"
  end.

(** ToString, as applied by template literals and by computed property
    keys. *)
Definition to_string (v : value) : option string :=
  match v with
  | VUndefined => Some "undefined"
  | VJson j => json_to_string j
  | VNative n => Some (native_to_string n)
  end.

(** ** Property reads *)

(** The properties of [Object.prototype]. *)
Definition object_prototype (k : string) : option native :=
  if decide (k = "constructor") then Some NObject
  else if decide (k = "__proto__") then Some NObjectPrototype
  else if decide (k ∈ ["hasOwnProperty"; "isPrototypeOf";
                       "propertyIsEnumerable"; "toLocaleString";
                       "toString"; "valueOf"; "__defineGetter__";
                       "__defineSetter__"; "__lookupGetter__";
                       "__lookupSetter__"])
       then Some (NMethod k)
  else None.

(** [o[k]] on a plain object whose own properties are [m]: the own
    property, else the inherited one, else [undefined]. *)
Definition obj_get (m : gmap string value) (k : string) : value :=
  match m !! k with
  | Some v => v
  | None =>
      match object_prototype k with
      | Some n => VNative n
      | None => VUndefined
      end
  end.

(** ** Message formatter *)

Definition titles : gmap string value :=
  {[ "like" := VStr "❤️ New Like";
     "comment" := VStr "💬 New Comment";
     "follow" := VStr "👤 New Follower";
     "reply" := VStr "↩️ New Reply";
     "mention" := VStr "@️ Mention" ]}.

Definition messages : gmap string value :=
  {[ "like" := VStr "Someone liked your post";
     "comment" := VStr "Someone commented on your post";
     "follow" := VStr "Someone started following you";
     "reply" := VStr "Someone replied to your comment";
     "mention" := VStr "Someone mentioned you" ]}.

(** [titles[type] || 'New Notification']; [None] when the key does not
    convert to a string. *)
Definition getTitleForType (type : value) : option value :=
  k ← to_string type;
  Some (js_or (obj_get titles k) (VStr "New Notification")).

Definition getMessageForType (type : value) : option value :=
  k ← to_string type;
  Some (js_or (obj_get messages k) (VStr "You have a new notification")).

(** ** Effects *)

(** What the program does to the outside, in order.  The answers of the
    profile store and of the delivery service are not part of the trace:
    they are given by [services], as functions of what happened so far. *)
Inductive event : Type :=
| ConsoleLog (text : string)
| ConsoleLogValue (text : string) (v : value)
| ConsoleError (text : string)
| ConsoleErrorWith (text : string) (e : js_error)
| SelectFcmToken (userId : value)
| MessagingSend (msg : lit)
| Subscribe (channel kind schema table : string).

Inductive outcome (A : Type) : Type :=
| Returned (a : A)
| Thrown (e : js_error).
Arguments Returned {A} a.
Arguments Thrown {A} e.

(** [profiles_single] answers
    [supabase.from('profiles').select('fcm_token').eq('id', userId).single()]:
    it resolves to [{data, error}] (supabase-js reports a missing row and
    a failed request in [error]), or the awaited promise rejects.
    [messaging_send] answers [admin.messaging().send(message)] with the
    message id, or rejects. *)
Record services : Type := {
  profiles_single : list event → value → outcome (value * value);
  messaging_send : list event → lit → outcome string
}.

(** A computation runs from the trace so far, returns or throws, and
    leaves the extended trace. *)
Definition prog (A : Type) : Type := list event → outcome A * list event.

Definition ret {A} (a : A) : prog A := λ t, (Returned a, t).
Definition throw {A} (e : js_error) : prog A := λ t, (Thrown e, t).
Definition bind {A B} (c : prog A) (k : A → prog B) : prog B :=
  λ t, match c t with
       | (Returned a, t') => k a t'
       | (Thrown e, t') => (Thrown e, t')
       end.
Definition try_catch {A} (c : prog A) (h : js_error → prog A) : prog A :=
  λ t, match c t with
       | (Returned a, t') => (Returned a, t')
       | (Thrown e, t') => h e t'
       end.
Definition emit (e : event) : prog unit := λ t, (Returned (), (t ++ [e])%list).
Definition lift {A} (o : outcome A) : prog A := λ t, (o, t).

#[global] Instance prog_ret : MRet prog := @ret.
#[global] Instance prog_bind : MBind prog := λ A B k c, bind c k.

Definition console_log (text : string) : prog unit := emit (ConsoleLog text).
Definition console_error (text : string) : prog unit :=
  emit (ConsoleError text).

(** The two remote calls: record the call, then take the answer the
    service gives after everything that happened before it. *)
Definition call_profiles_single (srv : services) (userId : value)
  : prog (value * value) :=
  λ t, (profiles_single srv t userId, (t ++ [SelectFcmToken userId])%list).

Definition call_messaging_send (srv : services) (msg : lit) : prog string :=
  λ t, (messaging_send srv t msg, (t ++ [MessagingSend msg])%list).

(** ToString inside a template literal. *)
Definition interpolate (v : value) : prog string :=
  match to_string v with
  | Some s => ret s
  | None => throw (TypeError "Cannot convert object to primitive value")
  end.

(** [v.k], for the property names this program reads ([new], [fcm_token],
    [user_id], [userId], [title], ...), none of which a built-in prototype
    defines: reading from [undefined] or [null] throws, a plain object
    answers by [obj_get], and every other value has no such property. *)
Definition get_prop (v : value) (k : string) : outcome value :=
  match v with
  | VUndefined =>
      Thrown (TypeError ("Cannot read properties of undefined (reading '"
                         +:+ k +:+ "')"))
  | VJson JNull =>
      Thrown (TypeError ("Cannot read properties of null (reading '"
                         +:+ k +:+ "')"))
  | VJson (JObj m) => Returned (obj_get (VJson <$> m) k)
  | _ => Returned VUndefined
  end.

(** One property of the pattern [const { ..., k, ... } = src]: the same
    read, with the error destructuring gives. *)
Definition destructure (src : string) (v : value) (k : string)
  : outcome value :=
  match get_prop v k, to_string v with
  | Thrown _, Some shown =>
      Thrown (TypeError ("Cannot destructure property '" +:+ k +:+ "' of '"
                         +:+ src +:+ "' as it is " +:+ shown +:+ "."))
  | o, _ => o
  end.

(** [v?.k]. *)
Definition opt_chain (v : value) (k : string) : value :=
  match get_prop v k with
  | Returned x => x
  | Thrown _ => VUndefined
  end.

(** ** Notification dispatcher *)

(** A continuation byte of UTF-8. *)
Definition continuation (b : Ascii.ascii) : bool :=
  let n := Ascii.N_of_ascii b in (128 <=? n)%N && (n <? 192)%N.

(** The three bytes that write a code unit from [0x800] on (a lone
    surrogate included). *)
Definition unit_bytes (u : N) : list Ascii.ascii :=
  [Ascii.ascii_of_N (224 + N.shiftr u 12);
   Ascii.ascii_of_N (128 + N.land (N.shiftr u 6) 63);
   Ascii.ascii_of_N (128 + N.land u 63)].

(** The UTF-16 code units of a string, each as the bytes that write it.
    A sequence of one, two or three bytes is one code unit; a sequence of
    four bytes is a code point from [0x10000] on, hence a high and a low
    surrogate.  A byte that starts no well-formed sequence stands
    alone. *)
Fixpoint code_units (bs : list Ascii.ascii) : list (list Ascii.ascii) :=
  match bs with
  | [] => []
  | b0 :: r0 =>
      let n0 := Ascii.N_of_ascii b0 in
      match r0 with
      | b1 :: r1 =>
          if (192 <=? n0)%N && (n0 <? 224)%N && continuation b1
          then [b0; b1] :: code_units r1
          else
            match r1 with
            | b2 :: r2 =>
                if (224 <=? n0)%N && (n0 <? 240)%N && continuation b1
                   && continuation b2
                then [b0; b1; b2] :: code_units r2
                else
                  match r2 with
                  | b3 :: r3 =>
                      let cp :=
                        (N.shiftl (N.land n0 7) 18
                         + N.shiftl (N.land (Ascii.N_of_ascii b1) 63) 12
                         + N.shiftl (N.land (Ascii.N_of_ascii b2) 63) 6
                         + N.land (Ascii.N_of_ascii b3) 63)%N in
                      if (240 <=? n0)%N && (n0 <? 248)%N && continuation b1
                         && continuation b2 && continuation b3
                         && (65536 <=? cp)%N && (cp <? 1114112)%N
                      then
                        let v := (cp - 65536)%N in
                        unit_bytes (55296 + N.shiftr v 10)
                        :: unit_bytes (56320 + N.land v 1023)
                        :: code_units r3
                      else [b0] :: code_units r0
                  | [] => [b0] :: code_units r0
                  end
            | [] => [b0] :: code_units r0
            end
      | [] => [[b0]]
      end
  end.

(** The own enumerable properties [{...d}] copies: those of an object,
    the indexed elements of an array, the indexed code units of a string,
    and nothing for any other value. *)
Definition own_enumerable (d : lit) : gmap string lit :=
  match d with
  | LObj fields => fields
  | LVal (VJson (JObj m)) => (λ j, LVal (VJson j)) <$> m
  | LVal (VJson (JArr l)) =>
      list_to_map (imap (λ i j, (pretty i, LVal (VJson j))) l)
  | LVal (VJson (JStr s)) =>
      list_to_map
        (imap (λ i u, (pretty i, LVal (VStr (String.string_of_list_ascii u))))
              (code_units (String.list_ascii_of_string s)))
  | LVal _ => ∅
  end.

(** [{ type: type, title: title, body: body, ...data }]: the spread comes
    last, so its properties replace the three written before it. *)
Definition message_data (title body type : value) (data : lit)
  : gmap string lit :=
  own_enumerable data ∪
  <["body" := LVal body]>
    (<["title" := LVal title]> (<["type" := LVal type]> ∅)).

Definition build_message (title body type : value) (data : lit)
    (fcmToken : value) : lit :=
  LObj (<["apns" :=
            LObj {[ "headers" :=
                      LObj {[ "apns-priority" := LVal (VStr "10") ]} ]}]>
       (<["android" := LObj {[ "priority" := LVal (VStr "high") ]}]>
       (<["token" := LVal fcmToken]>
       (<["data" := LObj (message_data title body type data)]> ∅)))).

(** The default [data = {}] applies to an [undefined] argument only. *)
Definition default_data (data : lit) : lit :=
  match data with
  | LVal VUndefined => LObj ∅
  | _ => data
  end.

Definition sendNotification (srv : services)
    (userId title body type : value) (data : lit) : prog value :=
  let data := default_data data in
  try_catch
    (ty ← interpolate type;
     uid ← interpolate userId;
     console_log ("📱 Sending " +:+ ty +:+ " notification to user: " +:+ uid);;
     '(profiles, error) ← call_profiles_single srv userId;
     if truthy error || negb (truthy (opt_chain profiles "fcm_token")) then
       uid ← interpolate userId;
       console_log ("⚠️ No FCM token found for user " +:+ uid);;
       mret VNull
     else
       fcmToken ← lift (get_prop profiles "fcm_token");
       let message := build_message title body type data fcmToken in
       response ← call_messaging_send srv message;
       console_log ("✅ Notification sent successfully. Message ID: "
                    +:+ response);;
       mret (VStr response))
    (λ error,
       console_error ("❌ Error sending notification: "
                      +:+ error_to_string error);;
       throw error).

(** ** HTTP surface *)

Record response : Type := { status : Z; json_body : lit }.

(** [res.status(code).json(body)]; [res.json(body)] leaves the status at
    200. *)
Definition res_json (code : Z) (body : lit) : response :=
  {| status := code; json_body := body |}.

(** The handler of [POST /api/notifications/send], given [req.body]. *)
Definition post_notifications_send (srv : services) (req_body : value)
  : prog response :=
  try_catch
    (userId ← lift (destructure "req.body" req_body "userId");
     title ← lift (destructure "req.body" req_body "title");
     body ← lift (destructure "req.body" req_body "body");
     type ← lift (destructure "req.body" req_body "type");
     data ← lift (destructure "req.body" req_body "data");
     if negb (truthy userId) || negb (truthy title) || negb (truthy body)
        || negb (truthy type) then
       mret (res_json 400
               (LObj {[ "error" := LVal (VStr "Missing required fields") ]}))
     else
       messageId ← sendNotification srv userId title body type (LVal data);
       mret (res_json 200
               (LObj (<["messageId" := LVal messageId]>
                        {[ "success" := LVal (VBool true) ]}))))
    (λ error,
       mret (res_json 500
               (LObj {[ "error" := LVal (VStr (message error)) ]}))).

(** ** Change-feed listener *)

(** [a || f(type)]: the formatter runs only when [a] is falsy. *)
Definition or_default (a : value) (f : value → option value) (type : value)
  : prog value :=
  if truthy a then mret a
  else match f type with
       | Some v => mret v
       | None => throw (TypeError "Cannot convert object to primitive value")
       end.

(** The literal [{ post_id: post_id || '', comment_id: comment_id || '',
    sender_id: sender_id || '' }]. *)
Definition aux_data (post_id comment_id sender_id : value) : lit :=
  LObj (<["sender_id" := LVal (js_or sender_id (VStr ""))]>
       (<["comment_id" := LVal (js_or comment_id (VStr ""))]>
       (<["post_id" := LVal (js_or post_id (VStr ""))]> ∅))).

(** The callback registered for INSERT on [public.notifications]: what
    its [try] block does, then the whole callback. *)
Definition on_insert_try (srv : services) (payload : value) : prog unit :=
    (notification ← lift (get_prop payload "new");
     emit (ConsoleLogValue "🔔 New notification detected:" notification);;
     user_id ← lift (destructure "notification" notification "user_id");
     type ← lift (destructure "notification" notification "type");
     title ← lift (destructure "notification" notification "title");
     message ← lift (destructure "notification" notification "message");
     post_id ← lift (destructure "notification" notification "post_id");
     comment_id ← lift (destructure "notification" notification "comment_id");
     sender_id ← lift (destructure "notification" notification "sender_id");
     title' ← or_default title getTitleForType type;
     message' ← or_default message getMessageForType type;
     sendNotification srv user_id title' message' type
       (aux_data post_id comment_id sender_id);;
     mret ()).

Definition on_insert (srv : services) (payload : value) : prog unit :=
  try_catch (on_insert_try srv payload)
    (λ error,
       emit (ConsoleErrorWith "❌ Error processing notification:" error)).

(** The feed delivers its payloads one after the other; an exception that
    left the callback would end the run there. *)
Fixpoint deliver (srv : services) (payloads : list value) : prog unit :=
  match payloads with
  | [] => mret ()
  | p :: ps => on_insert srv p;; deliver srv ps
  end.

Definition startListeningToNotifications (srv : services)
    (payloads : list value) : prog unit :=
  console_log "🔔 Starting notification listener...";;
  emit (Subscribe "public:notifications" "INSERT" "public" "notifications");;
  console_log "✅ Notification listener started successfully";;
  deliver srv payloads.

(** * Properties *)

(** ** Vocabulary of the statements *)

(** The lines the dispatcher prints. *)
Definition sending_text (ty uid : string) : string :=
  "📱 Sending " +:+ ty +:+ " notification to user: " +:+ uid.
Definition no_token_text (uid : string) : string :=
  "⚠️ No FCM token found for user " +:+ uid.
Definition sent_text (id : string) : string :=
  "✅ Notification sent successfully. Message ID: " +:+ id.
Definition send_error_text (e : js_error) : string :=
  "❌ Error sending notification: " +:+ error_to_string e.

(** The lines the feed callback prints, and the error of a value that
    does not convert to a string. *)
Definition detected_text : string := "🔔 New notification detected:".
Definition processing_error_text : string :=
  "❌ Error processing notification:".
Definition unprintable : js_error :=
  TypeError "Cannot convert object to primitive value".

(** [a || f(type)] as a plain value: [None] when the formatter throws. *)
Definition or_default_value (a : value) (f : value → option value)
    (type : value) : option value :=
  if truthy a then Some a else f type.

(** The events a computation appends when started from [t]. *)
Definition added_events {A} (c : prog A) (t : list event) : list event :=
  drop (length t) (snd (c t)).

Definition is_send (e : event) : bool :=
  match e with MessagingSend _ => true | _ => false end.

(** The answers [{data, error}] of the profile store that leave the
    dispatcher without a token: the query failed, no row came back, or the
    row holds no token (no such column value, [null], or the empty
    string). *)
Inductive lookup_absent : value → value → Prop :=
| lookup_failed data error :
    truthy error = true → lookup_absent data error
| no_record error :
    lookup_absent VNull error
| token_missing m error :
    m !! "fcm_token" = None → lookup_absent (VJson (JObj m)) error
| token_null m error :
    m !! "fcm_token" = Some JNull → lookup_absent (VJson (JObj m)) error
| token_empty m error :
    m !! "fcm_token" = Some (JStr "") → lookup_absent (VJson (JObj m)) error.

(** The answer to a request that fails validation. *)
Definition missing_fields_response : response :=
  res_json 400 (LObj {[ "error" := LVal (VStr "Missing required fields") ]}).

Definition is_string (l : lit) : bool :=
  match l with LVal (VJson (JStr _)) => true | _ => false end.

(** The names a plain object inherits. *)
Definition inherited_names : list string :=
  ["constructor"; "__proto__"; "hasOwnProperty"; "isPrototypeOf";
   "propertyIsEnumerable"; "toLocaleString"; "toString"; "valueOf";
   "__defineGetter__"; "__defineSetter__"; "__lookupGetter__";
   "__lookupSetter__"].

Definition categories : list string :=
  ["like"; "comment"; "follow"; "reply"; "mention"].

(** Sample services, rows and requests. *)
Module Sample.

Definition row_with_token : value :=
  VJson (JObj {[ "fcm_token" := JStr "device-token-1" ]}).

Definition not_found : value :=
  VJson (JObj {[ "code" := JStr "PGRST116" ]}).

Definition rejected : js_error :=
  mkError "FirebaseMessagingError" "Requested entity was not found.".

(** Every user has a token and every delivery succeeds. *)
Definition delivering : services :=
  {| profiles_single := λ _ _, Returned (row_with_token, VNull);
     messaging_send := λ _ _, Returned "projects/p/messages/1" |}.

(** Every user has a token and every delivery is rejected. *)
Definition rejecting : services :=
  {| profiles_single := λ _ _, Returned (row_with_token, VNull);
     messaging_send := λ _ _, Thrown rejected |}.

(** No user has a profile row. *)
Definition without_rows : services :=
  {| profiles_single := λ _ _, Returned (VNull, not_found);
     messaging_send := λ _ _, Returned "projects/p/messages/1" |}.

(** Every user has a row whose token is unset. *)
Definition without_tokens : services :=
  {| profiles_single :=
       λ _ _, Returned (VJson (JObj {[ "fcm_token" := JNull ]}), VNull);
     messaging_send := λ _ _, Returned "projects/p/messages/1" |}.

Definition insert_of (row : gmap string json) : value :=
  VJson (JObj {[ "new" := JObj row ]}).

Definition like_row : gmap string json :=
  {[ "user_id" := JStr "u1"; "type" := JStr "like" ]}.

Definition numbered_row : gmap string json :=
  {[ "user_id" := JStr "u1"; "type" := JStr "like"; "post_id" := JNum 42 ]}.

Definition full_request : gmap string json :=
  {[ "userId" := JStr "u1"; "title" := JStr "Hello";
     "body" := JStr "World"; "type" := JStr "like" ]}.


Definition request_with_empty_title : gmap string json :=
  {[ "userId" := JStr "u1"; "title" := JStr "";
     "body" := JStr "World"; "type" := JStr "like" ]}.

Definition overriding_data : lit :=
  LVal (VJson (JObj {[ "title" := JStr "Overridden" ]})).

End Sample.

(** ** Counting calls *)

Definition is_lookup (e : event) : bool :=
  match e with SelectFcmToken _ => true | _ => false end.

(** How many delivery calls, and how many profile queries, a stretch of
    the trace holds. *)
Definition count_sends (l : list event) : nat :=
  length (filter (λ e, is_send e = true) l).
Definition count_lookups (l : list event) : nat :=
  length (filter (λ e, is_lookup e = true) l).

(** The five ways one call of the dispatcher can go, as the events it
    leaves: stopped at its first line, lookup rejected, no token, message
    delivered, delivery failed. *)
Inductive dispatch_events (userId : value) : list event → Prop :=
| stopped_early text :
    dispatch_events userId [ConsoleError text]
| lookup_rejected line text :
    dispatch_events userId
      [ConsoleLog line; SelectFcmToken userId; ConsoleError text]
| nothing_to_send line line' :
    dispatch_events userId
      [ConsoleLog line; SelectFcmToken userId; ConsoleLog line']
| delivered line msg line' :
    dispatch_events userId
      [ConsoleLog line; SelectFcmToken userId; MessagingSend msg;
       ConsoleLog line']
| delivery_failed line msg text :
    dispatch_events userId
      [ConsoleLog line; SelectFcmToken userId; MessagingSend msg;
       ConsoleError text].

(** Console output, as opposed to calls of the two services and to the
    subscription. *)
Definition is_console (e : event) : bool :=
  match e with
  | ConsoleLog _ | ConsoleLogValue _ _ | ConsoleError _
  | ConsoleErrorWith _ _ => true
  | _ => false
  end.

(** Strings written with decimal digits only, as array indices are. *)
Definition digits_only (s : string) : bool :=
  forallb (λ c, (48 <=? Ascii.N_of_ascii c)%N && (Ascii.N_of_ascii c <=? 57)%N)
    (String.list_ascii_of_string s).

(** The three base fields of the [data] mapping, before the spread. *)
Definition base_data (title body type : value) : gmap string lit :=
  <["body" := LVal body]>
    (<["title" := LVal title]> (<["type" := LVal type]> ∅)).

(** Values whose spread copies nothing. *)
Definition spreads_nothing (d : lit) : bool :=
  match d with
  | LVal VUndefined | LVal (VJson JNull) | LVal (VJson (JBool _))
  | LVal (VJson (JNum _)) | LVal (VNative _) => true
  | _ => false
  end.

(** Further sample services and inputs. *)
Module Edge.

Definition unreachable : js_error := mkError "Error" "fetch failed".

(** The profile query itself rejects. *)
Definition lookup_rejecting : services :=
  {| profiles_single := λ _ _, Thrown unreachable;
     messaging_send := λ _ _, Returned "projects/p/messages/1" |}.

(** An object that does not convert to a string. *)
Definition opaque_id : json := JObj {[ "toString" := JNum 1 ]}.

Definition request_with_opaque_user : gmap string json :=
  {[ "userId" := opaque_id; "title" := JStr "Hello";
     "body" := JStr "World"; "type" := JStr "like" ]}.

Definition titled_row : gmap string json :=
  {[ "user_id" := JStr "u1"; "type" := JStr "comment";
     "title" := JStr "Custom"; "message" := JStr "Text";
     "post_id" := JStr "p9" ]}.

Definition comment_row : gmap string json :=
  {[ "user_id" := JStr "u1"; "type" := JStr "comment" ]}.

End Edge.

(** ** Running the dispatcher *)

(** Which of the listed events [H : ev ∈ [e1; ...; en]] speaks of. *)
Ltac sent_among H :=
  repeat (apply elem_of_cons in H as [H|H];
          [first [discriminate H | injection H as H] |]);
  try (apply elem_of_nil in H; destruct H).

Ltac run_prog :=
  cbv [sendNotification try_catch mbind prog_bind bind mret prog_ret ret
       throw lift emit console_log console_error call_profiles_single
       call_messaging_send interpolate].

Lemma get_prop_opt_chain v k :
  truthy (opt_chain v k) = true → get_prop v k = Returned (opt_chain v k).
Proof.
  unfold opt_chain. destruct (get_prop v k); [done | discriminate].
Qed.

(** A value that does not convert to a string stops the call at its
    first line. *)
Lemma sendNotification_unprintable srv userId title body type data t :
  to_string type = None ∨ to_string userId = None →
  sendNotification srv userId title body type data t =
    let e := TypeError "Cannot convert object to primitive value" in
    (Thrown e, (t ++ [ConsoleError (send_error_text e)])%list).
Proof.
  intros H. run_prog.
  destruct (to_string type) as [ty|]; [|done].
  destruct H as [H|H]; [discriminate|]. by rewrite H.
Qed.

(** Otherwise the call logs, asks for the token and goes one of four
    ways. *)
Lemma sendNotification_run srv userId title body type data t ty uid :
  to_string type = Some ty → to_string userId = Some uid →
  let t1 := (t ++ [ConsoleLog (sending_text ty uid)])%list in
  let t2 := (t1 ++ [SelectFcmToken userId])%list in
  sendNotification srv userId title body type data t =
    match profiles_single srv t1 userId with
    | Thrown e => (Thrown e, (t2 ++ [ConsoleError (send_error_text e)])%list)
    | Returned (profiles, error) =>
        if truthy error || negb (truthy (opt_chain profiles "fcm_token"))
        then (Returned VNull, (t2 ++ [ConsoleLog (no_token_text uid)])%list)
        else
          let msg := build_message title body type (default_data data)
                       (opt_chain profiles "fcm_token") in
          match messaging_send srv t2 msg with
          | Returned id =>
              (Returned (VStr id),
               (t2 ++ [MessagingSend msg; ConsoleLog (sent_text id)])%list)
          | Thrown e =>
              (Thrown e,
               (t2 ++ [MessagingSend msg;
                       ConsoleError (send_error_text e)])%list)
          end
    end.
Proof.
  intros Hty Huid t1 t2. subst t1 t2. run_prog. rewrite Hty, Huid.
  fold (sending_text ty uid).
  destruct (profiles_single srv _ userId) as [[profiles error]|e]; [|done].
  destruct (truthy error || negb (truthy (opt_chain profiles "fcm_token")))
    eqn:Hguard.
  - by rewrite <- !app_assoc.
  - apply orb_false_iff in Hguard as [_ Htok].
    apply negb_false_iff in Htok.
    rewrite (get_prop_opt_chain _ _ Htok).
    destruct (messaging_send srv _ _) as [id|e];
      by rewrite <- !app_assoc.
Qed.

Lemma lookup_absent_guard profiles error :
  lookup_absent profiles error →
  truthy error || negb (truthy (opt_chain profiles "fcm_token")) = true.
Proof.
  intros H. apply orb_true_iff.
  destruct H as [d e He| e | m e Hm | m e Hm | m e Hm]; [by left|right..].
  - done.
  - cbv [opt_chain get_prop obj_get]. by rewrite lookup_fmap, Hm.
  - cbv [opt_chain get_prop obj_get]. by rewrite lookup_fmap, Hm.
  - cbv [opt_chain get_prop obj_get]. by rewrite lookup_fmap, Hm.
Qed.

(** When the store leaves the dispatcher without a token, the call
    returns [null] after three events, none of them a delivery. *)
Lemma sendNotification_absent srv userId title body type data t ty uid
    profiles error :
  to_string type = Some ty → to_string userId = Some uid →
  profiles_single srv (t ++ [ConsoleLog (sending_text ty uid)])%list userId
    = Returned (profiles, error) →
  lookup_absent profiles error →
  sendNotification srv userId title body type data t =
    (Returned VNull,
     (t ++ [ConsoleLog (sending_text ty uid); SelectFcmToken userId;
            ConsoleLog (no_token_text uid)])%list).
Proof.
  intros Hty Huid Hans Habs.
  rewrite (sendNotification_run _ _ _ _ _ _ _ _ _ Hty Huid), Hans.
  rewrite (lookup_absent_guard _ _ Habs). by rewrite <- !app_assoc.
Qed.

(** C1.  When the profile lookup of a user yields no record, no
    [fcm_token] value or a lookup error, [sendNotification] returns [null];
    all it does is print its first line, query the profile and print that
    no token was found.  The delivery service is not called, so no message
    built for it ever leaves the function. *)
Theorem sendNotification_no_token_is_noop
    srv userId title body type data t ty uid profiles error :
  to_string type = Some ty → to_string userId = Some uid →
  profiles_single srv (t ++ [ConsoleLog (sending_text ty uid)])%list userId
    = Returned (profiles, error) →
  lookup_absent profiles error →
  sendNotification srv userId title body type data t =
    (Returned VNull,
     (t ++ [ConsoleLog (sending_text ty uid); SelectFcmToken userId;
            ConsoleLog (no_token_text uid)])%list)
  ∧ filter (λ e, is_send e = true)
      (added_events (sendNotification srv userId title body type data) t)
    = [].
Proof.
  intros Hty Huid Hans Habs.
  pose proof (sendNotification_absent srv userId title body type data t
                ty uid profiles error Hty Huid Hans Habs) as Hrun.
  split; [exact Hrun|].
  unfold added_events. rewrite Hrun. simpl snd.
  by rewrite drop_app_length.
Qed.

Lemma sendNotification_no_token_is_noop_witness :
  sendNotification Sample.without_rows (VStr "u1") (VStr "Hello")
    (VStr "World") (VStr "like") (LVal VUndefined) [] =
    (Returned VNull,
     [ConsoleLog (sending_text "like" "u1"); SelectFcmToken (VStr "u1");
      ConsoleLog (no_token_text "u1")])
  ∧ filter (λ e, is_send e = true)
      (added_events (sendNotification Sample.without_rows (VStr "u1")
                       (VStr "Hello") (VStr "World") (VStr "like")
                       (LVal VUndefined)) [])
    = [].
Proof.
  apply (sendNotification_no_token_is_noop Sample.without_rows (VStr "u1")
           (VStr "Hello") (VStr "World") (VStr "like") (LVal VUndefined) []
           "like" "u1" VNull Sample.not_found);
    [reflexivity | reflexivity | reflexivity |].
  apply lookup_failed. reflexivity.
Defined.

(** C7.  The three ways of having no token (no profile record, a record
    whose token is unset, a failed lookup) give the caller one and the same
    outcome: [null], after the same events. *)
Theorem sendNotification_absent_cases_coincide
    srv1 srv2 userId title body type data t ty uid
    profiles1 error1 profiles2 error2 :
  to_string type = Some ty → to_string userId = Some uid →
  profiles_single srv1 (t ++ [ConsoleLog (sending_text ty uid)])%list userId
    = Returned (profiles1, error1) →
  profiles_single srv2 (t ++ [ConsoleLog (sending_text ty uid)])%list userId
    = Returned (profiles2, error2) →
  lookup_absent profiles1 error1 →
  lookup_absent profiles2 error2 →
  sendNotification srv1 userId title body type data t
    = sendNotification srv2 userId title body type data t
  ∧ fst (sendNotification srv1 userId title body type data t)
    = Returned VNull.
Proof.
  intros Hty Huid Hans1 Hans2 Habs1 Habs2.
  rewrite (sendNotification_absent srv1 _ _ _ _ _ _ _ _ _ _
             Hty Huid Hans1 Habs1).
  rewrite (sendNotification_absent srv2 _ _ _ _ _ _ _ _ _ _
             Hty Huid Hans2 Habs2).
  done.
Qed.

Lemma sendNotification_absent_cases_coincide_witness :
  sendNotification Sample.without_rows (VStr "u1") (VStr "Hello")
    (VStr "World") (VStr "like") (LVal VUndefined) []
    = sendNotification Sample.without_tokens (VStr "u1") (VStr "Hello")
        (VStr "World") (VStr "like") (LVal VUndefined) []
  ∧ fst (sendNotification Sample.without_rows (VStr "u1") (VStr "Hello")
           (VStr "World") (VStr "like") (LVal VUndefined) [])
    = Returned VNull.
Proof.
  apply (sendNotification_absent_cases_coincide
           Sample.without_rows Sample.without_tokens (VStr "u1")
           (VStr "Hello") (VStr "World") (VStr "like") (LVal VUndefined) []
           "like" "u1" VNull Sample.not_found
           (VJson (JObj {[ "fcm_token" := JNull ]})) VNull);
    [reflexivity | reflexivity | reflexivity | reflexivity | |].
  - apply no_record.
  - apply token_null. reflexivity.
Defined.

(** C8.  Once a token is resolved the delivery service is called exactly
    once.  If that call raises, [sendNotification] prints the error and
    raises the very same error to its caller, with no second attempt and
    nothing put aside; if it succeeds, the identifier the service answered
    is returned as it is. *)
Theorem sendNotification_delivery_outcome
    srv userId title body type data t ty uid profiles error :
  to_string type = Some ty → to_string userId = Some uid →
  profiles_single srv (t ++ [ConsoleLog (sending_text ty uid)])%list userId
    = Returned (profiles, error) →
  truthy error = false →
  truthy (opt_chain profiles "fcm_token") = true →
  let t2 := (t ++ [ConsoleLog (sending_text ty uid);
                   SelectFcmToken userId])%list in
  let msg := build_message title body type (default_data data)
               (opt_chain profiles "fcm_token") in
  match messaging_send srv t2 msg with
  | Thrown e =>
      sendNotification srv userId title body type data t =
        (Thrown e,
         (t2 ++ [MessagingSend msg; ConsoleError (send_error_text e)])%list)
  | Returned id =>
      sendNotification srv userId title body type data t =
        (Returned (VStr id),
         (t2 ++ [MessagingSend msg; ConsoleLog (sent_text id)])%list)
  end
  ∧ length (filter (λ e, is_send e = true)
              (added_events
                 (sendNotification srv userId title body type data) t)) = 1.
Proof.
  intros Hty Huid Hans Herr Htok t2 msg.
  pose proof (sendNotification_run srv userId title body type data t ty uid
                Hty Huid) as Hrun.
  cbv zeta in Hrun. rewrite Hans, Herr, Htok in Hrun. simpl in Hrun.
  rewrite <- !app_assoc in Hrun. simpl in Hrun.
  fold msg in Hrun. fold t2 in Hrun.
  unfold added_events. rewrite Hrun.
  destruct (messaging_send srv t2 msg) as [id|e].
  - split; [done|].
    simpl snd. unfold t2. by rewrite <- app_assoc, drop_app_length.
  - split; [done|].
    simpl snd. unfold t2. by rewrite <- app_assoc, drop_app_length.
Qed.

Lemma sendNotification_delivery_outcome_witness :
  let t2 := [ConsoleLog (sending_text "like" "u1");
             SelectFcmToken (VStr "u1")] in
  let msg := build_message (VStr "Hello") (VStr "World") (VStr "like")
               (LObj ∅) (VStr "device-token-1") in
  sendNotification Sample.rejecting (VStr "u1") (VStr "Hello")
    (VStr "World") (VStr "like") (LVal VUndefined) [] =
    (Thrown Sample.rejected,
     (t2 ++ [MessagingSend msg;
             ConsoleError (send_error_text Sample.rejected)])%list)
  ∧ length (filter (λ e, is_send e = true)
              (added_events
                 (sendNotification Sample.rejecting (VStr "u1")
                    (VStr "Hello") (VStr "World") (VStr "like")
                    (LVal VUndefined)) [])) = 1.
Proof.
  exact (sendNotification_delivery_outcome Sample.rejecting (VStr "u1")
           (VStr "Hello") (VStr "World") (VStr "like") (LVal VUndefined) []
           "like" "u1" Sample.row_with_token VNull
           eq_refl eq_refl eq_refl eq_refl eq_refl).
Defined.

(** ** The message handed to the delivery service *)

(** Whatever [sendNotification] sends is the literal of the source, built
    around a truthy token. *)
Lemma sendNotification_sends srv userId title body type data t msg :
  MessagingSend msg
    ∈ added_events (sendNotification srv userId title body type data) t →
  ∃ fcmToken, truthy fcmToken = true
    ∧ msg = build_message title body type (default_data data) fcmToken.
Proof.
  unfold added_events.
  destruct (to_string type) as [ty|] eqn:Hty;
    [destruct (to_string userId) as [uid|] eqn:Huid|].
  - rewrite (sendNotification_run _ _ _ _ _ _ _ _ _ Hty Huid). cbv zeta.
    destruct (profiles_single srv _ userId) as [[profiles error]|e].
    + destruct (truthy error || negb (truthy (opt_chain profiles "fcm_token")))
        eqn:Hguard.
      * simpl snd. rewrite <- !app_assoc, drop_app_length.
        intros Hin. sent_among Hin.
      * apply orb_false_iff in Hguard as [_ Htok].
        apply negb_false_iff in Htok.
        destruct (messaging_send srv _ _) as [id|e];
          simpl snd; rewrite <- !app_assoc, drop_app_length;
          intros Hin; sent_among Hin;
          by exists (opt_chain profiles "fcm_token").
    + simpl snd. rewrite <- !app_assoc, drop_app_length.
      intros Hin. sent_among Hin.
  - rewrite sendNotification_unprintable by (by right).
    simpl snd. rewrite drop_app_length. intros Hin. sent_among Hin.
  - rewrite sendNotification_unprintable by (by left).
    simpl snd. rewrite drop_app_length. intros Hin. sent_among Hin.
Qed.

Lemma own_enumerable_default data :
  own_enumerable (default_data data) = own_enumerable data.
Proof. by destruct data as [[| |]|]. Qed.

Lemma message_data_spread title body type data k v :
  own_enumerable data !! k = Some v →
  message_data title body type data !! k = Some v.
Proof. intros H. unfold message_data. by apply lookup_union_Some_l. Qed.

Lemma message_data_base title body type data k :
  own_enumerable data !! k = None →
  message_data title body type data !! k =
    (<["body" := LVal body]>
       (<["title" := LVal title]>
          (<["type" := LVal type]> (∅ : gmap string lit)))) !! k.
Proof. intros H. unfold message_data. by rewrite lookup_union_r. Qed.

(** C2.  Every message [sendNotification] hands to the delivery service
    has exactly the fields [data], [token], [android] and [apns], hence no
    [notification] field.  [android] holds only the priority ['high'],
    [apns] only the header ['apns-priority': '10'].  The [data] mapping
    holds [type], [title], [body] and the pairs of [auxData], and nothing
    else. *)
Theorem sendNotification_message_is_data_only
    srv userId title body type data t msg :
  MessagingSend msg
    ∈ added_events (sendNotification srv userId title body type data) t →
  ∃ (fields d : gmap string lit) (fcmToken : value),
    msg = LObj fields
    ∧ dom fields =@{gset string} {[ "data"; "token"; "android"; "apns" ]}
    ∧ fields !! "notification" = None
    ∧ fields !! "token" = Some (LVal fcmToken)
    ∧ fields !! "android"
      = Some (LObj {[ "priority" := LVal (VStr "high") ]})
    ∧ fields !! "apns"
      = Some (LObj {[ "headers" :=
                        LObj {[ "apns-priority" := LVal (VStr "10") ]} ]})
    ∧ fields !! "data" = Some (LObj d)
    ∧ dom d =@{gset string}
        {[ "type"; "title"; "body" ]} ∪ dom (own_enumerable data)
    ∧ (∀ k v, own_enumerable data !! k = Some v → d !! k = Some v)
    ∧ (own_enumerable data !! "type" = None → d !! "type" = Some (LVal type))
    ∧ (own_enumerable data !! "title" = None
       → d !! "title" = Some (LVal title))
    ∧ (own_enumerable data !! "body" = None → d !! "body" = Some (LVal body)).
Proof.
  intros Hin.
  destruct (sendNotification_sends _ _ _ _ _ _ _ _ Hin) as (tok & _ & ->).
  eexists _, (message_data title body type (default_data data)), tok.
  split_and!; try reflexivity.
  - unfold message_data. rewrite dom_union_L, own_enumerable_default.
    rewrite !dom_insert_L, dom_empty_L. apply set_eq. intros x.
    rewrite !elem_of_union, !elem_of_singleton, elem_of_empty. tauto.
  - intros k v Hk. apply message_data_spread.
    by rewrite own_enumerable_default.
  - intros Hk. rewrite message_data_base
      by (by rewrite own_enumerable_default). done.
  - intros Hk. rewrite message_data_base
      by (by rewrite own_enumerable_default). done.
  - intros Hk. rewrite message_data_base
      by (by rewrite own_enumerable_default). done.
Qed.

Lemma sendNotification_message_is_data_only_witness :
  ∃ (fields d : gmap string lit) (fcmToken : value),
    build_message (VStr "Hello") (VStr "World") (VStr "like") (LObj ∅)
      (VStr "device-token-1") = LObj fields
    ∧ dom fields =@{gset string} {[ "data"; "token"; "android"; "apns" ]}
    ∧ fields !! "notification" = None
    ∧ fields !! "token" = Some (LVal fcmToken)
    ∧ fields !! "android"
      = Some (LObj {[ "priority" := LVal (VStr "high") ]})
    ∧ fields !! "apns"
      = Some (LObj {[ "headers" :=
                        LObj {[ "apns-priority" := LVal (VStr "10") ]} ]})
    ∧ fields !! "data" = Some (LObj d)
    ∧ dom d =@{gset string}
        {[ "type"; "title"; "body" ]}
        ∪ dom (own_enumerable (LVal VUndefined))
    ∧ (∀ k v, own_enumerable (LVal VUndefined) !! k = Some v
              → d !! k = Some v)
    ∧ (own_enumerable (LVal VUndefined) !! "type" = None
       → d !! "type" = Some (LVal (VStr "like")))
    ∧ (own_enumerable (LVal VUndefined) !! "title" = None
       → d !! "title" = Some (LVal (VStr "Hello")))
    ∧ (own_enumerable (LVal VUndefined) !! "body" = None
       → d !! "body" = Some (LVal (VStr "World"))).
Proof.
  apply (sendNotification_message_is_data_only Sample.delivering
           (VStr "u1") (VStr "Hello") (VStr "World") (VStr "like")
           (LVal VUndefined) []).
  apply (list_elem_of_lookup_2 _ 2). vm_compute. reflexivity.
Defined.

(** C10.  When [auxData] has an own property named [type], [title] or
    [body], the message's [data] mapping carries the [auxData] value under
    that name, not the argument of the same name: the spread is written
    after the three base fields. *)
Theorem sendNotification_auxData_overrides
    srv userId title body type data t msg k v :
  MessagingSend msg
    ∈ added_events (sendNotification srv userId title body type data) t →
  k ∈ ["type"; "title"; "body"] →
  own_enumerable data !! k = Some v →
  ∃ fields d : gmap string lit,
    msg = LObj fields ∧ fields !! "data" = Some (LObj d) ∧ d !! k = Some v.
Proof.
  intros Hin _ Hk.
  destruct (sendNotification_sends _ _ _ _ _ _ _ _ Hin) as (tok & _ & ->).
  eexists _, (message_data title body type (default_data data)).
  split_and!; try reflexivity.
  apply message_data_spread. by rewrite own_enumerable_default.
Qed.

Lemma sendNotification_auxData_overrides_witness :
  ∃ fields d : gmap string lit,
    build_message (VStr "Hello") (VStr "World") (VStr "like")
      Sample.overriding_data (VStr "device-token-1") = LObj fields
    ∧ fields !! "data" = Some (LObj d)
    ∧ d !! "title" = Some (LVal (VStr "Overridden")).
Proof.
  apply (sendNotification_auxData_overrides Sample.delivering
           (VStr "u1") (VStr "Hello") (VStr "World") (VStr "like")
           Sample.overriding_data []).
  - apply (list_elem_of_lookup_2 _ 2). vm_compute. reflexivity.
  - apply (list_elem_of_lookup_2 _ 1). reflexivity.
  - vm_compute. reflexivity.
Defined.

(** ** The manual-send route *)


(** The dispatcher never passes unnoticed: it appends at least one
    event. *)
Lemma sendNotification_leaves_events srv userId title body type data t :
  ∃ e l, snd (sendNotification srv userId title body type data t)
         = (t ++ e :: l)%list.
Proof.
  destruct (to_string type) as [ty|] eqn:Hty;
    [destruct (to_string userId) as [uid|] eqn:Huid|].
  - rewrite (sendNotification_run _ _ _ _ _ _ _ _ _ Hty Huid). cbv zeta.
    exists (ConsoleLog (sending_text ty uid)).
    destruct (profiles_single srv _ userId) as [[profiles error]|e];
      [destruct (truthy error
                 || negb (truthy (opt_chain profiles "fcm_token")));
       [|destruct (messaging_send srv _ _) as [id|e]]|];
      simpl snd; rewrite <- !app_assoc; simpl; eauto.
  - rewrite sendNotification_unprintable by (by right). simpl. eauto.
  - rewrite sendNotification_unprintable by (by left). simpl. eauto.
Qed.

(** The route on a request whose body is the JSON object [m]. *)
Lemma post_notifications_send_run srv (m : gmap string json) t :
  let field k := obj_get (VJson <$> m) k in
  post_notifications_send srv (VJson (JObj m)) t =
    if negb (truthy (field "userId")) || negb (truthy (field "title"))
       || negb (truthy (field "body")) || negb (truthy (field "type"))
    then (Returned missing_fields_response, t)
    else
      match sendNotification srv (field "userId") (field "title")
              (field "body") (field "type") (LVal (field "data")) t with
      | (Returned messageId, t') =>
          (Returned
             (res_json 200
                (LObj (<["messageId" := LVal messageId]>
                         {[ "success" := LVal (VBool true) ]}))), t')
      | (Thrown e, t') =>
          (Returned
             (res_json 500 (LObj {[ "error" := LVal (VStr (message e)) ]})),
           t')
      end.
Proof.
  intros field.
  cbv [post_notifications_send try_catch mbind prog_bind bind mret prog_ret
       ret lift destructure get_prop].
  fold (field "userId") (field "title") (field "body") (field "type")
       (field "data").
  destruct (negb (truthy (field "userId")) || negb (truthy (field "title"))
            || negb (truthy (field "body")) || negb (truthy (field "type")));
    [done|].
  by destruct (sendNotification srv _ _ _ _ _ t) as [[messageId|e] t'].
Qed.

Lemma present_field (m : gmap string json) k j :
  m !! k = Some j → obj_get (VJson <$> m) k = VJson j.
Proof. intros Hm. unfold obj_get. by rewrite lookup_fmap, Hm. Qed.

(** C9.  Validation tests truthiness, not presence: a request that holds
    all four of [userId], [title], [body] and [type], at least one of them
    the empty string or another falsy value, is answered 400
    [{error: "Missing required fields"}], and the dispatcher is not
    invoked. *)
Theorem post_notifications_send_rejects_falsy
    srv (m : gmap string json) t userId title body type :
  m !! "userId" = Some userId → m !! "title" = Some title →
  m !! "body" = Some body → m !! "type" = Some type →
  truthy (VJson userId) && truthy (VJson title)
  && truthy (VJson body) && truthy (VJson type) = false →
  post_notifications_send srv (VJson (JObj m)) t
    = (Returned missing_fields_response, t).
Proof.
  intros Hu Hti Hb Hty Hfalsy.
  rewrite post_notifications_send_run. cbv zeta.
  rewrite (present_field _ _ _ Hu), (present_field _ _ _ Hti),
    (present_field _ _ _ Hb), (present_field _ _ _ Hty).
  by rewrite <- !negb_andb, Hfalsy.
Qed.

Lemma post_notifications_send_rejects_falsy_witness :
  post_notifications_send Sample.delivering
      (VJson (JObj Sample.request_with_empty_title)) []
    = (Returned missing_fields_response, []).
Proof.
  apply (post_notifications_send_rejects_falsy Sample.delivering
           Sample.request_with_empty_title []
           (JStr "u1") (JStr "") (JStr "World") (JStr "like"));
    reflexivity.
Defined.

(** ** The change-feed callback *)

(** A pattern either fails on every property (the source is [undefined]
    or [null]) or reads every property. *)
Lemma destructure_read src n k e k' :
  destructure src n k = Returned e →
  destructure src n k' = Returned (opt_chain n k').
Proof.
  unfold destructure, opt_chain.
  destruct n as [|[| | | | |]|]; simpl; by try discriminate.
Qed.

Lemma or_default_run a f type t :
  or_default a f type t =
    match or_default_value a f type with
    | Some v => (Returned v, t)
    | None => (Thrown unprintable, t)
    end.
Proof.
  unfold or_default, or_default_value.
  destruct (truthy a); [done|]. by destruct (f type).
Qed.

(** The [try] block of the callback, step by step. *)
Lemma on_insert_try_run srv payload t :
  on_insert_try srv payload t =
    match get_prop payload "new" with
    | Thrown e => (Thrown e, t)
    | Returned n =>
        let t1 := (t ++ [ConsoleLogValue detected_text n])%list in
        let field k := opt_chain n k in
        match destructure "notification" n "user_id" with
        | Thrown e => (Thrown e, t1)
        | Returned _ =>
            match or_default_value (field "title") getTitleForType
                    (field "type") with
            | None => (Thrown unprintable, t1)
            | Some title' =>
                match or_default_value (field "message") getMessageForType
                        (field "type") with
                | None => (Thrown unprintable, t1)
                | Some message' =>
                    match sendNotification srv (field "user_id") title'
                            message' (field "type")
                            (aux_data (field "post_id") (field "comment_id")
                               (field "sender_id")) t1 with
                    | (Returned _, t2) => (Returned (), t2)
                    | (Thrown e, t2) => (Thrown e, t2)
                    end
                end
            end
        end
    end.
Proof.
  unfold on_insert_try.
  cbv [mbind prog_bind bind mret prog_ret ret lift emit].
  destruct (get_prop payload "new") as [n|e]; [|done].
  fold detected_text.
  destruct (destructure "notification" n "user_id") as [u|e] eqn:Hu; [|done].
  rewrite !(destructure_read _ _ _ _ _ Hu) in *.
  assert (u = opt_chain n "user_id") as ->.
  { rewrite (destructure_read _ _ _ _ "user_id" Hu) in Hu. congruence. }
  cbv zeta. rewrite or_default_run.
  destruct (or_default_value (opt_chain n "title") _ _) as [title'|]; [|done].
  rewrite or_default_run.
  destruct (or_default_value (opt_chain n "message") _ _) as [message'|];
    [|done].
  by destruct (sendNotification srv _ _ _ _ _ _) as [[v|e] t2].
Qed.

(** The callback turns an exception of its [try] block into one more
    line on the console. *)
Lemma on_insert_run srv payload t :
  on_insert srv payload t =
    match on_insert_try srv payload t with
    | (Returned _, t') => (Returned (), t')
    | (Thrown e, t') =>
        (Returned (),
         (t' ++ [ConsoleErrorWith processing_error_text e])%list)
    end.
Proof.
  unfold on_insert, try_catch, emit.
  by destruct (on_insert_try srv payload t) as [[[]|e] t'].
Qed.

Lemma on_insert_returns srv payload t :
  fst (on_insert srv payload t) = Returned ().
Proof.
  rewrite on_insert_run.
  by destruct (on_insert_try srv payload t) as [[[]|e] t'].
Qed.

Lemma deliver_returns srv payloads t :
  fst (deliver srv payloads t) = Returned ().
Proof.
  revert t. induction payloads as [|p ps IH]; intros t; [done|].
  simpl. cbv [mbind prog_bind bind].
  pose proof (on_insert_returns srv p t) as Hp.
  destruct (on_insert srv p t) as [[[]|e] t']; [apply IH | discriminate].
Qed.

Lemma deliver_cons srv p ps t :
  deliver srv (p :: ps) t = deliver srv ps (snd (on_insert srv p t)).
Proof.
  simpl. cbv [mbind prog_bind bind].
  pose proof (on_insert_returns srv p t) as Hp.
  by destruct (on_insert srv p t) as [[[]|e] t']; [|discriminate].
Qed.

Lemma deliver_app srv ps qs t :
  deliver srv (ps ++ qs) t = deliver srv qs (snd (deliver srv ps t)).
Proof.
  revert t. induction ps as [|p ps IH]; intros t; [done|].
  rewrite <- app_comm_cons, !deliver_cons. apply IH.
Qed.

(** C6.  When the processing of a feed event raises an exception [e]
    (a rejected delivery among others), the callback catches it, prints it
    and returns normally; the run over the feed goes on with the events
    that follow, and never ends with an exception. *)
Theorem on_insert_isolates_failures srv before p after t e t1 :
  on_insert_try srv p (snd (deliver srv before t)) = (Thrown e, t1) →
  let t2 := (t1 ++ [ConsoleErrorWith processing_error_text e])%list in
  on_insert srv p (snd (deliver srv before t)) = (Returned (), t2)
  ∧ deliver srv (before ++ p :: after) t = deliver srv after t2
  ∧ fst (deliver srv (before ++ p :: after) t) = Returned ().
Proof.
  intros Htry t2.
  assert (on_insert srv p (snd (deliver srv before t)) = (Returned (), t2))
    as Hp by (by rewrite on_insert_run, Htry).
  split_and!; [done| |apply deliver_returns].
  by rewrite deliver_app, deliver_cons, Hp.
Qed.

Lemma on_insert_isolates_failures_witness :
  let t1 :=
    snd (on_insert_try Sample.rejecting (Sample.insert_of Sample.like_row)
           []) in
  let t2 :=
    (t1 ++ [ConsoleErrorWith processing_error_text Sample.rejected])%list in
  on_insert Sample.rejecting (Sample.insert_of Sample.like_row) []
    = (Returned (), t2)
  ∧ deliver Sample.rejecting
      ([] ++ Sample.insert_of Sample.like_row
          :: [Sample.insert_of Sample.like_row]) []
    = deliver Sample.rejecting [Sample.insert_of Sample.like_row] t2
  ∧ fst (deliver Sample.rejecting
           ([] ++ Sample.insert_of Sample.like_row
               :: [Sample.insert_of Sample.like_row]) [])
    = Returned ().
Proof.
  apply (on_insert_isolates_failures Sample.rejecting []
           (Sample.insert_of Sample.like_row)
           [Sample.insert_of Sample.like_row] [] Sample.rejected).
  vm_compute. reflexivity.
Defined.

(** The feed as the source starts it: three events, then the
    deliveries. *)
Lemma startListeningToNotifications_run srv payloads t :
  startListeningToNotifications srv payloads t =
    deliver srv payloads
      (t ++ [ConsoleLog "🔔 Starting notification listener...";
             Subscribe "public:notifications" "INSERT" "public"
               "notifications";
             ConsoleLog "✅ Notification listener started successfully"])%list.
Proof.
  unfold startListeningToNotifications.
  cbv [mbind prog_bind bind console_log emit]. by rewrite <- !app_assoc.
Qed.

(** ** What the feed puts into the message *)

Lemma sendNotification_extends srv userId title body type data t :
  snd (sendNotification srv userId title body type data t) =
    (t ++ added_events (sendNotification srv userId title body type data) t)
    %list.
Proof.
  destruct (sendNotification_leaves_events srv userId title body type data t)
    as (e & l & Hl).
  unfold added_events. by rewrite Hl, drop_app_length.
Qed.

(** Every message sent on behalf of a feed event is the dispatcher's
    literal, fed with the event's category and with the three auxiliary
    identifiers of the event, each defaulted to the empty string. *)
Lemma on_insert_sends srv payload t msg :
  MessagingSend msg ∈ added_events (on_insert srv payload) t →
  ∃ n title' message' fcmToken,
    get_prop payload "new" = Returned n
    ∧ msg = build_message title' message' (opt_chain n "type")
              (aux_data (opt_chain n "post_id") (opt_chain n "comment_id")
                 (opt_chain n "sender_id")) fcmToken.
Proof.
  unfold added_events. rewrite on_insert_run, on_insert_try_run.
  destruct (get_prop payload "new") as [n|e].
  2:{ simpl. rewrite drop_app_length. intros Hin. sent_among Hin. }
  cbv zeta.
  destruct (destructure "notification" n "user_id") as [u|e].
  2:{ simpl. rewrite <- app_assoc, drop_app_length.
      intros Hin. sent_among Hin. }
  destruct (or_default_value (opt_chain n "title") _ _) as [title'|].
  2:{ simpl. rewrite <- app_assoc, drop_app_length.
      intros Hin. sent_among Hin. }
  destruct (or_default_value (opt_chain n "message") _ _) as [message'|].
  2:{ simpl. rewrite <- app_assoc, drop_app_length.
      intros Hin. sent_among Hin. }
  set (t1 := (t ++ [ConsoleLogValue detected_text n])%list).
  pose proof (sendNotification_extends srv (opt_chain n "user_id") title'
                message' (opt_chain n "type")
                (aux_data (opt_chain n "post_id") (opt_chain n "comment_id")
                   (opt_chain n "sender_id")) t1) as Hext.
  pose proof (sendNotification_sends srv (opt_chain n "user_id") title'
                message' (opt_chain n "type")
                (aux_data (opt_chain n "post_id") (opt_chain n "comment_id")
                   (opt_chain n "sender_id")) t1 msg) as Hsends.
  destruct (sendNotification srv _ _ _ _ _ t1) as [[v|e] t2];
    simpl in Hext; subst t2; subst t1; simpl snd;
    rewrite <- ?app_assoc, drop_app_length; intros Hin.
  - apply elem_of_cons in Hin as [Hin|Hin]; [discriminate|].
    destruct (Hsends Hin) as (tok & _ & ->). by exists n, title', message', tok.
  - apply elem_of_cons in Hin as [Hin|Hin]; [discriminate|].
    apply elem_of_app in Hin as [Hin|Hin]; [|sent_among Hin].
    destruct (Hsends Hin) as (tok & _ & ->). by exists n, title', message', tok.
Qed.

Lemma aux_data_lookup post_id comment_id sender_id title body type k :
  k ∈ ["post_id"; "comment_id"; "sender_id"] →
  message_data title body type (aux_data post_id comment_id sender_id) !! k
  = (<["sender_id" := LVal (js_or sender_id (VStr ""))]>
       (<["comment_id" := LVal (js_or comment_id (VStr ""))]>
          (<["post_id" := LVal (js_or post_id (VStr ""))]>
             (∅ : gmap string lit)))) !! k.
Proof.
  intros Hk. unfold message_data, aux_data, own_enumerable.
  repeat (apply elem_of_cons in Hk as [->|Hk]; [done|]).
  by apply elem_of_nil in Hk.
Qed.

Lemma js_or_string s : js_or (VStr s) (VStr "") = VStr s.
Proof.
  unfold js_or. simpl. destruct (String.eqb_spec s ""); by subst.
Qed.

(** C4, as the code has it.  Every message sent for a feed event carries
    the keys [post_id], [comment_id] and [sender_id] in its [data]
    mapping.  Each holds the event's own value when that value is truthy
    and the empty string otherwise: an identifier absent from the event
    (or [null], empty, [0], [false]) gives the empty string, never an
    absent key, and an identifier that is a string stays that string.
    Nothing converts the other values to strings. *)
Theorem on_insert_aux_data srv payload t msg :
  MessagingSend msg ∈ added_events (on_insert srv payload) t →
  ∃ (n : value) (fields d : gmap string lit),
    get_prop payload "new" = Returned n
    ∧ msg = LObj fields ∧ fields !! "data" = Some (LObj d)
    ∧ ∀ k, k ∈ ["post_id"; "comment_id"; "sender_id"] →
        d !! k = Some (LVal (js_or (opt_chain n k) (VStr "")))
        ∧ (truthy (opt_chain n k) = false → d !! k = Some (LVal (VStr "")))
        ∧ (∀ row, n = VJson (JObj row) → row !! k = None →
             d !! k = Some (LVal (VStr "")))
        ∧ (∀ s, opt_chain n k = VStr s → d !! k = Some (LVal (VStr s))).
Proof.
  intros Hin.
  destruct (on_insert_sends _ _ _ _ Hin)
    as (n & title' & message' & tok & Hn & ->).
  eexists n, _, (message_data title' message' (opt_chain n "type")
                   (default_data
                      (aux_data (opt_chain n "post_id")
                         (opt_chain n "comment_id")
                         (opt_chain n "sender_id")))).
  split_and!; try reflexivity; [done|].
  intros k Hk.
  assert (message_data title' message' (opt_chain n "type")
            (default_data
               (aux_data (opt_chain n "post_id") (opt_chain n "comment_id")
                  (opt_chain n "sender_id"))) !! k
          = Some (LVal (js_or (opt_chain n k) (VStr "")))) as Hd.
  { change (default_data (aux_data ?a ?b ?c)) with (aux_data a b c).
    rewrite (aux_data_lookup _ _ _ _ _ _ _ Hk).
    repeat (apply elem_of_cons in Hk as [->|Hk]; [done|]).
    by apply elem_of_nil in Hk. }
  split_and!.
  - done.
  - intros Hf. rewrite Hd. unfold js_or. by rewrite Hf.
  - intros row -> Hrow. rewrite Hd.
    unfold opt_chain, get_prop, obj_get. rewrite lookup_fmap, Hrow. simpl.
    repeat (apply elem_of_cons in Hk as [->|Hk]; [done|]).
    by apply elem_of_nil in Hk.
  - intros s Hs. by rewrite Hd, Hs, js_or_string.
Qed.

Lemma on_insert_aux_data_witness :
  ∃ (n : value) (fields d : gmap string lit),
    get_prop (Sample.insert_of Sample.like_row) "new" = Returned n
    ∧ build_message (VStr "❤️ New Like") (VStr "Someone liked your post")
        (VStr "like") (aux_data VUndefined VUndefined VUndefined)
        (VStr "device-token-1") = LObj fields
    ∧ fields !! "data" = Some (LObj d)
    ∧ ∀ k, k ∈ ["post_id"; "comment_id"; "sender_id"] →
        d !! k = Some (LVal (js_or (opt_chain n k) (VStr "")))
        ∧ (truthy (opt_chain n k) = false → d !! k = Some (LVal (VStr "")))
        ∧ (∀ row, n = VJson (JObj row) → row !! k = None →
             d !! k = Some (LVal (VStr "")))
        ∧ (∀ s, opt_chain n k = VStr s → d !! k = Some (LVal (VStr s))).
Proof.
  apply (on_insert_aux_data Sample.delivering
           (Sample.insert_of Sample.like_row) []).
  apply (list_elem_of_lookup_2 _ 3). vm_compute. reflexivity.
Defined.

(** C4 as written fails: an event whose [post_id] is the number 42 is sent
    with [post_id] holding that number, which is not a string. *)
Lemma on_insert_aux_value_not_string :
  ∃ (msg : lit) (fields d : gmap string lit) (v : lit),
    MessagingSend msg
      ∈ added_events
          (on_insert Sample.delivering
             (Sample.insert_of Sample.numbered_row)) []
    ∧ msg = LObj fields ∧ fields !! "data" = Some (LObj d)
    ∧ d !! "post_id" = Some v
    ∧ v = LVal (VJson (JNum 42))
    ∧ is_string v = false.
Proof.
  eexists _, _, _, _. split_and!.
  - apply (list_elem_of_lookup_2 _ 3). vm_compute. reflexivity.
  - reflexivity.
  - reflexivity.
  - vm_compute. reflexivity.
  - reflexivity.
  - reflexivity.
Qed.

(** ** The formatter *)

(** The five categories get their fixed title and body. *)
Lemma formatter_categories :
  getTitleForType (VStr "like") = Some (VStr "❤️ New Like")
  ∧ getMessageForType (VStr "like") = Some (VStr "Someone liked your post")
  ∧ getTitleForType (VStr "comment") = Some (VStr "💬 New Comment")
  ∧ getMessageForType (VStr "comment")
    = Some (VStr "Someone commented on your post")
  ∧ getTitleForType (VStr "follow") = Some (VStr "👤 New Follower")
  ∧ getMessageForType (VStr "follow")
    = Some (VStr "Someone started following you")
  ∧ getTitleForType (VStr "reply") = Some (VStr "↩️ New Reply")
  ∧ getMessageForType (VStr "reply")
    = Some (VStr "Someone replied to your comment")
  ∧ getTitleForType (VStr "mention") = Some (VStr "@️ Mention")
  ∧ getMessageForType (VStr "mention") = Some (VStr "Someone mentioned you").
Proof. split_and!; vm_compute; reflexivity. Qed.

Lemma object_prototype_other k :
  k ∉ inherited_names → object_prototype k = None.
Proof.
  intros Hk. unfold object_prototype.
  repeat case_decide; try done; exfalso; apply Hk; unfold inherited_names;
    apply list_elem_of_In.
  - subst k. simpl. tauto.
  - subst k. simpl. tauto.
  - match goal with H : k ∈ _ |- _ => apply list_elem_of_In in H end.
    simpl in *. tauto.
Qed.

(** A category that is a string, none of the five and not the name of an
    inherited member gets the generic title and body; so does an absent
    category. *)
Lemma formatter_fallback s :
  s ∉ categories → s ∉ inherited_names →
  getTitleForType (VStr s) = Some (VStr "New Notification")
  ∧ getMessageForType (VStr s) = Some (VStr "You have a new notification").
Proof.
  intros Hc Hi. unfold getTitleForType, getMessageForType. simpl.
  assert (titles !! s = None ∧ messages !! s = None) as [Ht Hm].
  { unfold titles, messages, categories in *.
    split; rewrite !lookup_insert_ne, lookup_singleton_ne; try done;
      intros <-; apply Hc; apply list_elem_of_In; simpl; tauto. }
  unfold obj_get. rewrite Ht, Hm, (object_prototype_other _ Hi). done.
Qed.

Lemma formatter_absent :
  getTitleForType VUndefined = Some (VStr "New Notification")
  ∧ getMessageForType VUndefined
    = Some (VStr "You have a new notification").
Proof. split; vm_compute; reflexivity. Qed.

(** C5 fails on the code.  For the category ["constructor"], which is not
    one of the five, the formatter answers with the member every object
    inherits under that name (the [Object] function) instead of the
    generic title and body; for a category object holding an own
    [toString], it throws instead of returning. *)
Lemma formatter_inherited_name :
  getTitleForType (VStr "constructor") = Some (VNative NObject)
  ∧ getMessageForType (VStr "constructor") = Some (VNative NObject)
  ∧ getTitleForType (VStr "constructor") ≠ Some (VStr "New Notification")
  ∧ getMessageForType (VStr "constructor")
    ≠ Some (VStr "You have a new notification")
  ∧ getTitleForType (VJson (JObj {[ "toString" := JNum 1 ]})) = None.
Proof. split_and!; try (vm_compute; reflexivity); by vm_compute. Qed.

(** * Further properties of the code *)

(** ** One call of the dispatcher *)

(** Whatever its arguments and whatever the services answer, a call goes
    one of the five ways of [dispatch_events]. *)
Lemma sendNotification_events srv userId title body type data t :
  dispatch_events userId
    (added_events (sendNotification srv userId title body type data) t).
Proof.
  unfold added_events.
  destruct (to_string type) as [ty|] eqn:Hty;
    [destruct (to_string userId) as [uid|] eqn:Huid|].
  - rewrite (sendNotification_run _ _ _ _ _ _ _ _ _ Hty Huid). cbv zeta.
    destruct (profiles_single srv _ userId) as [[profiles error]|e];
      [destruct (truthy error
                 || negb (truthy (opt_chain profiles "fcm_token")));
       [|destruct (messaging_send srv _ _) as [id|e]]|];
      simpl snd; rewrite <- !app_assoc, drop_app_length; constructor.
  - rewrite sendNotification_unprintable by (by right).
    simpl snd. rewrite drop_app_length. constructor.
  - rewrite sendNotification_unprintable by (by left).
    simpl snd. rewrite drop_app_length. constructor.
Qed.

Lemma dispatch_events_counts userId l :
  dispatch_events userId l →
  (count_sends l ≤ count_lookups l)%nat ∧ (count_lookups l ≤ 1)%nat.
Proof. intros []; cbv; lia. Qed.

(** X1.  A call of [sendNotification] keeps the trace it was given and
    appends to it; it queries the profile store at most once and calls
    the delivery service at most once, and a delivery call is always
    preceded, within the same call, by the profile query for [userId]. *)
Theorem sendNotification_call_discipline
    srv userId title body type data t :
  let added :=
    added_events (sendNotification srv userId title body type data) t in
  snd (sendNotification srv userId title body type data t)
    = (t ++ added)%list
  ∧ (count_lookups added ≤ 1)%nat
  ∧ (count_sends added ≤ count_lookups added)%nat
  ∧ (∀ i msg, added !! i = Some (MessagingSend msg) →
       ∃ j, (j < i)%nat ∧ added !! j = Some (SelectFcmToken userId)).
Proof.
  intros added.
  pose proof (sendNotification_events srv userId title body type data t)
    as Hshape. fold added in Hshape.
  split_and!.
  - apply sendNotification_extends.
  - by apply (dispatch_events_counts userId).
  - by apply (dispatch_events_counts userId).
  - intros i msg Hi. exists 1.
    destruct Hshape; destruct i as [|[|[|[|i]]]]; simpl in Hi;
      try discriminate; (split; [lia | reflexivity]).
Qed.

(** X3.  When the awaited profile query rejects, the dispatcher does not
    answer [null]: it prints the error and raises it to the caller, and
    the delivery service is not called. *)
Theorem sendNotification_lookup_rejection
    srv userId title body type data t ty uid e :
  to_string type = Some ty → to_string userId = Some uid →
  profiles_single srv (t ++ [ConsoleLog (sending_text ty uid)])%list userId
    = Thrown e →
  sendNotification srv userId title body type data t
    = (Thrown e,
       (t ++ [ConsoleLog (sending_text ty uid); SelectFcmToken userId;
              ConsoleError (send_error_text e)])%list)
  ∧ count_sends
      (added_events (sendNotification srv userId title body type data) t)
    = 0.
Proof.
  intros Hty Huid Hans.
  assert (sendNotification srv userId title body type data t
          = (Thrown e,
             (t ++ [ConsoleLog (sending_text ty uid); SelectFcmToken userId;
                    ConsoleError (send_error_text e)])%list)) as Hrun.
  { rewrite (sendNotification_run _ _ _ _ _ _ _ _ _ Hty Huid), Hans.
    by rewrite <- !app_assoc. }
  split; [exact Hrun|].
  unfold added_events. rewrite Hrun. simpl snd.
  by rewrite drop_app_length.
Qed.

Lemma sendNotification_lookup_rejection_witness :
  sendNotification Edge.lookup_rejecting (VStr "u1") (VStr "Hello")
      (VStr "World") (VStr "like") (LVal VUndefined) []
    = (Thrown Edge.unreachable,
       [ConsoleLog (sending_text "like" "u1"); SelectFcmToken (VStr "u1");
        ConsoleError (send_error_text Edge.unreachable)])
  ∧ count_sends
      (added_events
         (sendNotification Edge.lookup_rejecting (VStr "u1") (VStr "Hello")
            (VStr "World") (VStr "like") (LVal VUndefined)) [])
    = 0.
Proof.
  exact (sendNotification_lookup_rejection Edge.lookup_rejecting (VStr "u1")
           (VStr "Hello") (VStr "World") (VStr "like") (LVal VUndefined) []
           "like" "u1" Edge.unreachable eq_refl eq_refl eq_refl).
Defined.

(** X2.  The value [sendNotification] returns tells whether a message
    went out.  [null] means the profile store was asked once and the
    delivery service was not called; any other returned value is the
    identifier the delivery service answered to the one call made. *)
Theorem sendNotification_result_tells_delivery
    srv userId title body type data t v t' :
  sendNotification srv userId title body type data t = (Returned v, t') →
  let added :=
    added_events (sendNotification srv userId title body type data) t in
  (v = VNull ∧ count_sends added = 0 ∧ count_lookups added = 1)
  ∨ (∃ id msg,
       v = VStr id ∧ count_sends added = 1
       ∧ added !! 2 = Some (MessagingSend msg)
       ∧ messaging_send srv (t ++ take 2 added)%list msg = Returned id).
Proof.
  intros Hrun added. subst added. unfold added_events. rewrite Hrun.
  simpl snd. revert Hrun.
  destruct (to_string type) as [ty|] eqn:Hty;
    [destruct (to_string userId) as [uid|] eqn:Huid|].
  - rewrite (sendNotification_run _ _ _ _ _ _ _ _ _ Hty Huid). cbv zeta.
    destruct (profiles_single srv _ userId) as [[profiles error]|e];
      [|discriminate].
    destruct (truthy error || negb (truthy (opt_chain profiles "fcm_token"))).
    + intros [= <- <-]. left.
      rewrite <- !app_assoc, drop_app_length. by cbv.
    + destruct (messaging_send srv _ _) as [id|e] eqn:Hsend; [|discriminate].
      intros [= <- <-]. right. eexists id, _.
      rewrite <- !app_assoc, drop_app_length. simpl.
      split_and!; try reflexivity.
      by rewrite <- app_assoc in Hsend.
  - rewrite sendNotification_unprintable by (by right). discriminate.
  - rewrite sendNotification_unprintable by (by left). discriminate.
Qed.

Lemma sendNotification_result_tells_delivery_witness :
  let added :=
    added_events
      (sendNotification Sample.delivering (VStr "u1") (VStr "Hello")
         (VStr "World") (VStr "like") (LVal VUndefined)) [] in
  (VStr "projects/p/messages/1" = VNull
   ∧ count_sends added = 0 ∧ count_lookups added = 1)
  ∨ (∃ id msg,
       VStr "projects/p/messages/1" = VStr id ∧ count_sends added = 1
       ∧ added !! 2 = Some (MessagingSend msg)
       ∧ messaging_send Sample.delivering ([] ++ take 2 added)%list msg
         = Returned id).
Proof.
  apply (sendNotification_result_tells_delivery Sample.delivering
           (VStr "u1") (VStr "Hello") (VStr "World") (VStr "like")
           (LVal VUndefined) [] (VStr "projects/p/messages/1")
           (snd (sendNotification Sample.delivering (VStr "u1")
                   (VStr "Hello") (VStr "World") (VStr "like")
                   (LVal VUndefined) []))).
  vm_compute. reflexivity.
Defined.

(** X5.  A message is sent only when the profile store answered without
    an error and with a truthy [fcm_token]; the [token] of the message is
    that very value, whatever its kind, and its [data] is built from the
    arguments of the call. *)
Theorem sendNotification_token_provenance
    srv userId title body type data t msg :
  MessagingSend msg
    ∈ added_events (sendNotification srv userId title body type data) t →
  ∃ ty uid profiles error,
    to_string type = Some ty ∧ to_string userId = Some uid
    ∧ profiles_single srv (t ++ [ConsoleLog (sending_text ty uid)])%list
        userId = Returned (profiles, error)
    ∧ truthy error = false
    ∧ truthy (opt_chain profiles "fcm_token") = true
    ∧ msg = build_message title body type (default_data data)
              (opt_chain profiles "fcm_token").
Proof.
  unfold added_events.
  destruct (to_string type) as [ty|] eqn:Hty;
    [destruct (to_string userId) as [uid|] eqn:Huid|].
  - rewrite (sendNotification_run _ _ _ _ _ _ _ _ _ Hty Huid). cbv zeta.
    destruct (profiles_single srv _ userId) as [[profiles error]|e] eqn:Hans.
    + destruct (truthy error || negb (truthy (opt_chain profiles "fcm_token")))
        eqn:Hguard.
      * simpl snd. rewrite <- !app_assoc, drop_app_length.
        intros Hin. sent_among Hin.
      * apply orb_false_iff in Hguard as [Herr Htok].
        apply negb_false_iff in Htok.
        destruct (messaging_send srv _ _) as [id|e];
          simpl snd; rewrite <- !app_assoc, drop_app_length;
          intros Hin; sent_among Hin; subst msg;
          by exists ty, uid, profiles, error.
    + simpl snd. rewrite <- !app_assoc, drop_app_length.
      intros Hin. sent_among Hin.
  - rewrite sendNotification_unprintable by (by right).
    simpl snd. rewrite drop_app_length. intros Hin. sent_among Hin.
  - rewrite sendNotification_unprintable by (by left).
    simpl snd. rewrite drop_app_length. intros Hin. sent_among Hin.
Qed.

Lemma sendNotification_token_provenance_witness :
  ∃ ty uid profiles error,
    to_string (VStr "like") = Some ty ∧ to_string (VStr "u1") = Some uid
    ∧ profiles_single Sample.delivering
        ([] ++ [ConsoleLog (sending_text ty uid)])%list (VStr "u1")
      = Returned (profiles, error)
    ∧ truthy error = false
    ∧ truthy (opt_chain profiles "fcm_token") = true
    ∧ build_message (VStr "Hello") (VStr "World") (VStr "like") (LObj ∅)
        (VStr "device-token-1")
      = build_message (VStr "Hello") (VStr "World") (VStr "like")
          (default_data (LVal VUndefined)) (opt_chain profiles "fcm_token").
Proof.
  apply (sendNotification_token_provenance Sample.delivering (VStr "u1")
           (VStr "Hello") (VStr "World") (VStr "like") (LVal VUndefined) []).
  apply (list_elem_of_lookup_2 _ 2). vm_compute. reflexivity.
Defined.

(** ** What the spread copies *)

Lemma indexed_properties {A} (g : A → lit) (l : list A) (k i : nat) :
  (list_to_map (imap (λ j x, (pretty (k + j), g x)) l) : gmap string lit)
    !! pretty (k + i) = g <$> l !! i.
Proof.
  revert k i. induction l as [|x l IH]; intros k i; [done|].
  simpl. destruct i as [|i].
  - by rewrite lookup_insert_eq.
  - rewrite lookup_insert_ne by (intros H%(inj pretty); lia).
    rewrite (imap_ext _ (λ j y, (pretty (S k + j), g y)))
      by (intros j y _; simpl; do 2 f_equal; lia).
    replace (k + S i) with (S k + i) by lia. apply IH.
Qed.

(** X10.  An [auxData] that is [undefined], [null], a number or a
    boolean adds nothing: the [data] mapping of the message sent is
    exactly [type], [title] and [body], holding the arguments of the
    call. *)
Theorem sendNotification_plain_data
    srv userId title body type data t msg :
  spreads_nothing data = true →
  MessagingSend msg
    ∈ added_events (sendNotification srv userId title body type data) t →
  ∃ fields : gmap string lit,
    msg = LObj fields
    ∧ fields !! "data" = Some (LObj (base_data title body type)).
Proof.
  intros Hplain Hin.
  destruct (sendNotification_sends _ _ _ _ _ _ _ _ Hin) as (tok & _ & ->).
  eexists. split; [reflexivity|].
  assert (message_data title body type (default_data data)
          = base_data title body type) as <-; [|reflexivity].
  unfold message_data, base_data. rewrite own_enumerable_default.
  destruct data as [[|[]|]|]; try discriminate; apply (left_id_L ∅ (∪)).
Qed.

Lemma sendNotification_plain_data_witness :
  ∃ fields : gmap string lit,
    build_message (VStr "Hello") (VStr "World") (VStr "like") (LVal VNull)
      (VStr "device-token-1") = LObj fields
    ∧ fields !! "data"
      = Some (LObj (base_data (VStr "Hello") (VStr "World") (VStr "like"))).
Proof.
  apply (sendNotification_plain_data Sample.delivering (VStr "u1")
           (VStr "Hello") (VStr "World") (VStr "like") (LVal VNull) []).
  - reflexivity.
  - apply (list_elem_of_lookup_2 _ 2). vm_compute. reflexivity.
Defined.

Lemma pretty_N_go_digits x s :
  digits_only s = true → digits_only (pretty_N_go x s) = true.
Proof.
  revert s. induction (N.lt_wf_0 x) as [x _ IH]; intros s Hs.
  assert (x = 0 ∨ 0 < x)%N as [->|Hx] by lia.
  - by rewrite pretty_N_go_0.
  - rewrite pretty_N_go_step by done. apply IH.
    { by apply N.div_lt. }
    unfold digits_only in *. simpl. rewrite Hs.
    unfold pretty_N_char. by repeat case_match.
Qed.

Lemma pretty_nat_digits (i : nat) : digits_only (pretty i) = true.
Proof.
  unfold pretty, pretty_nat, pretty, pretty_N.
  case_decide; [done|]. by apply pretty_N_go_digits.
Qed.

Lemma indexed_only {A} (g : A → lit) (l : list A) (k : nat) key :
  digits_only key = false →
  (list_to_map (imap (λ j x, (pretty (k + j), g x)) l) : gmap string lit)
    !! key = None.
Proof.
  intros Hkey. revert k. induction l as [|x l IH]; intros k; [done|].
  simpl. rewrite lookup_insert_ne.
  - rewrite (imap_ext _ (λ j y, (pretty (S k + j), g y)))
      by (intros j y _; simpl; do 2 f_equal; lia).
    apply IH.
  - intros <-. by rewrite pretty_nat_digits in Hkey.
Qed.

(** The [data] mapping when the spread is that of [l], indexed. *)
Lemma indexed_data {A} (g : A → lit) (l : list A) title body type :
  let d : gmap string lit :=
    list_to_map (imap (λ j x, (pretty j, g x)) l)
    ∪ <["body" := LVal body]>
        (<["title" := LVal title]> (<["type" := LVal type]> ∅)) in
  (∀ i : nat, d !! pretty i = g <$> l !! i)
  ∧ d !! "type" = Some (LVal type)
  ∧ d !! "title" = Some (LVal title)
  ∧ d !! "body" = Some (LVal body).
Proof.
  intros d. subst d.
  pose proof (indexed_properties g l 0) as Hidx.
  pose proof (indexed_only g l 0) as Hother.
  cbn [Nat.add] in Hidx, Hother.
  split_and!.
  - intros i. destruct (l !! i) as [x|] eqn:Hi.
    + apply lookup_union_Some_l. by rewrite Hidx, Hi.
    + rewrite lookup_union_r by (by rewrite Hidx, Hi).
      pose proof (pretty_nat_digits i) as Hd.
      rewrite !lookup_insert_ne, lookup_empty; [done|..];
        intros E; by rewrite <- E in Hd.
  - by rewrite lookup_union_r by (by apply Hother).
  - by rewrite lookup_union_r by (by apply Hother).
  - by rewrite lookup_union_r by (by apply Hother).
Qed.

(** X11.  An array given as [auxData] is spread by index: in every
    message sent, the [data] mapping holds element [i] of the array under
    the key that is the decimal writing of [i], no other index, and
    [type], [title] and [body] still hold the arguments of the call. *)
Theorem sendNotification_array_data
    srv userId title body type (l : list json) t msg :
  MessagingSend msg
    ∈ added_events
        (sendNotification srv userId title body type (LVal (VJson (JArr l))))
        t →
  ∃ fields d : gmap string lit,
    msg = LObj fields ∧ fields !! "data" = Some (LObj d)
    ∧ (∀ i : nat, d !! pretty i = (λ j, LVal (VJson j)) <$> l !! i)
    ∧ d !! "type" = Some (LVal type)
    ∧ d !! "title" = Some (LVal title)
    ∧ d !! "body" = Some (LVal body).
Proof.
  intros Hin.
  destruct (sendNotification_sends _ _ _ _ _ _ _ _ Hin) as (tok & _ & ->).
  eexists _, _. split; [reflexivity|]. split; [reflexivity|].
  apply (indexed_data (λ j, LVal (VJson j)) l).
Qed.

Lemma sendNotification_array_data_witness :
  ∃ fields d : gmap string lit,
    build_message (VStr "Hello") (VStr "World") (VStr "like")
      (LVal (VJson (JArr [JStr "a"; JNum 7]))) (VStr "device-token-1")
    = LObj fields
    ∧ fields !! "data" = Some (LObj d)
    ∧ (∀ i : nat,
         d !! pretty i
         = (λ j, LVal (VJson j)) <$> [JStr "a"; JNum 7] !! i)
    ∧ d !! "type" = Some (LVal (VStr "like"))
    ∧ d !! "title" = Some (LVal (VStr "Hello"))
    ∧ d !! "body" = Some (LVal (VStr "World")).
Proof.
  apply (sendNotification_array_data Sample.delivering (VStr "u1")
           (VStr "Hello") (VStr "World") (VStr "like") [JStr "a"; JNum 7] []).
  apply (list_elem_of_lookup_2 _ 2). vm_compute. reflexivity.
Defined.

(** X19.  A string given as [auxData] is spread by UTF-16 code unit: in
    every message sent, the [data] mapping holds code unit [i] of the
    string, as a one-unit string, under the key that is the decimal
    writing of [i], no other index, and [type], [title] and [body] still
    hold the arguments of the call. *)
Theorem sendNotification_string_data
    srv userId title body type (s : string) t msg :
  MessagingSend msg
    ∈ added_events
        (sendNotification srv userId title body type (LVal (VStr s))) t →
  ∃ fields d : gmap string lit,
    msg = LObj fields ∧ fields !! "data" = Some (LObj d)
    ∧ (∀ i : nat,
         d !! pretty i
         = (λ u, LVal (VStr (String.string_of_list_ascii u)))
             <$> code_units (String.list_ascii_of_string s) !! i)
    ∧ d !! "type" = Some (LVal type)
    ∧ d !! "title" = Some (LVal title)
    ∧ d !! "body" = Some (LVal body).
Proof.
  intros Hin.
  destruct (sendNotification_sends _ _ _ _ _ _ _ _ Hin) as (tok & _ & ->).
  eexists _, _. split; [reflexivity|]. split; [reflexivity|].
  apply (indexed_data (λ u, LVal (VStr (String.string_of_list_ascii u)))
           (code_units (String.list_ascii_of_string s))).
Qed.

Lemma sendNotification_string_data_witness :
  ∃ fields d : gmap string lit,
    build_message (VStr "Hello") (VStr "World") (VStr "like")
      (LVal (VStr "ok")) (VStr "device-token-1") = LObj fields
    ∧ fields !! "data" = Some (LObj d)
    ∧ (∀ i : nat,
         d !! pretty i
         = (λ u, LVal (VStr (String.string_of_list_ascii u)))
             <$> code_units (String.list_ascii_of_string "ok") !! i)
    ∧ d !! "type" = Some (LVal (VStr "like"))
    ∧ d !! "title" = Some (LVal (VStr "Hello"))
    ∧ d !! "body" = Some (LVal (VStr "World")).
Proof.
  apply (sendNotification_string_data Sample.delivering (VStr "u1")
           (VStr "Hello") (VStr "World") (VStr "like") "ok" []).
  apply (list_elem_of_lookup_2 _ 2). vm_compute. reflexivity.
Defined.

(** ** The manual-send route on any body *)

(** The route on any [req.body]: the pattern fails on a missing body;
    otherwise the five properties are read and the route goes on as on a
    JSON object. *)
Lemma post_notifications_send_any srv req_body t :
  post_notifications_send srv req_body t =
    match destructure "req.body" req_body "userId" with
    | Thrown e =>
        (Returned
           (res_json 500 (LObj {[ "error" := LVal (VStr (message e)) ]})), t)
    | Returned _ =>
        let field k := opt_chain req_body k in
        if negb (truthy (field "userId")) || negb (truthy (field "title"))
           || negb (truthy (field "body")) || negb (truthy (field "type"))
        then (Returned missing_fields_response, t)
        else
          match sendNotification srv (field "userId") (field "title")
                  (field "body") (field "type") (LVal (field "data")) t with
          | (Returned messageId, t') =>
              (Returned
                 (res_json 200
                    (LObj (<["messageId" := LVal messageId]>
                             {[ "success" := LVal (VBool true) ]}))), t')
          | (Thrown e, t') =>
              (Returned
                 (res_json 500
                    (LObj {[ "error" := LVal (VStr (message e)) ]})), t')
          end
    end.
Proof.
  cbv [post_notifications_send try_catch mbind prog_bind bind mret prog_ret
       ret lift].
  destruct (destructure "req.body" req_body "userId") as [u|e] eqn:Hu;
    [|done].
  rewrite !(destructure_read _ _ _ _ _ Hu).
  assert (u = opt_chain req_body "userId") as ->.
  { rewrite (destructure_read _ _ _ _ "userId" Hu) in Hu. congruence. }
  cbv zeta.
  destruct (negb (truthy (opt_chain req_body "userId"))
            || negb (truthy (opt_chain req_body "title"))
            || negb (truthy (opt_chain req_body "body"))
            || negb (truthy (opt_chain req_body "type"))); [done|].
  by destruct (sendNotification srv _ _ _ _ _ t) as [[messageId|e] t'].
Qed.






(** X8.  A body that is a JSON array, whatever it holds, has none of the
    required fields: the route answers 400
    [{error: "Missing required fields"}] and leaves no event. *)
Theorem post_notifications_send_array_body srv t (l : list json) :
  post_notifications_send srv (VJson (JArr l)) t
    = (Returned missing_fields_response, t).
Proof. by rewrite post_notifications_send_any. Qed.

Lemma status_listed code body :
  code = 200%Z ∨ code = 400%Z ∨ code = 500%Z →
  status (res_json code body) ∈ [200; 400; 500]%Z.
Proof.
  intros [-> | [-> | ->]]; simpl;
    [apply (list_elem_of_lookup_2 _ 0) | apply (list_elem_of_lookup_2 _ 1)
    | apply (list_elem_of_lookup_2 _ 2)]; reflexivity.
Qed.

(** X6.  Whatever the body of the request and whatever the services
    answer, the route answers and never raises; the status is 200, 400 or
    500; the request costs at most one profile query and at most one
    delivery call, and a request answered 400 costs none and leaves no
    event. *)
Theorem post_notifications_send_always_answers srv req_body t :
  ∃ r added,
    post_notifications_send srv req_body t = (Returned r, (t ++ added)%list)
    ∧ status r ∈ [200; 400; 500]%Z
    ∧ (count_lookups added ≤ 1)%nat
    ∧ (count_sends added ≤ count_lookups added)%nat
    ∧ (status r = 400%Z → added = []).
Proof.
  rewrite post_notifications_send_any.
  destruct (destructure "req.body" req_body "userId") as [u|e].
  2:{ eexists _, []. rewrite app_nil_r.
      split_and!; first [done | by cbv; lia | by apply status_listed; auto]. }
  cbv zeta.
  destruct (negb (truthy (opt_chain req_body "userId")) || _ || _ || _).
  { eexists _, []. rewrite app_nil_r.
    split_and!; first [done | by cbv; lia | by apply status_listed; auto]. }
  set (args := sendNotification srv _ _ _ _ _).
  pose proof (sendNotification_events srv (opt_chain req_body "userId")
                (opt_chain req_body "title") (opt_chain req_body "body")
                (opt_chain req_body "type")
                (LVal (opt_chain req_body "data")) t) as Hshape.
  pose proof (sendNotification_extends srv (opt_chain req_body "userId")
                (opt_chain req_body "title") (opt_chain req_body "body")
                (opt_chain req_body "type")
                (LVal (opt_chain req_body "data")) t) as Hext.
  fold args in Hshape, Hext.
  destruct (dispatch_events_counts _ _ Hshape) as [Hs Hl].
  destruct (args t) as [[messageId|e] t'] eqn:Hargs; simpl in Hext;
    subst t'; eexists _, (added_events args t);
    (split_and!; [reflexivity|by apply status_listed; auto|done|done|discriminate]).
Qed.

(** X7.  A request without a parsed body ([req.body] is [undefined] or
    [null]) is not answered 400: the destructuring fails inside the
    [try], and the route answers 500 with the message of that error,
    without invoking the dispatcher. *)
Theorem post_notifications_send_without_body srv req_body t :
  req_body = VUndefined ∨ req_body = VNull →
  ∃ text,
    post_notifications_send srv req_body t
      = (Returned (res_json 500 (LObj {[ "error" := LVal (VStr text) ]})),
         t).
Proof.
  intros [-> | ->]; rewrite post_notifications_send_any; simpl; eauto.
Qed.

Lemma post_notifications_send_without_body_witness :
  ∃ text,
    post_notifications_send Sample.delivering VUndefined []
      = (Returned (res_json 500 (LObj {[ "error" := LVal (VStr text) ]})),
         []).
Proof.
  apply (post_notifications_send_without_body Sample.delivering VUndefined []).
  left. reflexivity.
Defined.

(** X9.  On a JSON-object body the route answers 400 exactly when
    [userId], [title], [body] or [type] is falsy (absent, [null], empty,
    [0] or [false]); otherwise the dispatcher is invoked and the answer
    is 200 or 500. *)
Theorem post_notifications_send_400_iff srv (m : gmap string json) t :
  let field k := obj_get (VJson <$> m) k in
  ∃ r, fst (post_notifications_send srv (VJson (JObj m)) t) = Returned r
    ∧ (status r = 400%Z ↔
       truthy (field "userId") && truthy (field "title")
       && truthy (field "body") && truthy (field "type") = false).
Proof.
  intros field. rewrite post_notifications_send_run. cbv zeta.
  fold (field "userId") (field "title") (field "body") (field "type")
       (field "data").
  rewrite <- !negb_andb.
  destruct (truthy (field "userId") && truthy (field "title")
            && truthy (field "body") && truthy (field "type")); simpl.
  - destruct (sendNotification srv _ _ _ _ _ t) as [[messageId|e] t'];
      eexists; (split; [reflexivity|]); simpl; split; discriminate.
  - eexists. split; [reflexivity|]. done.
Qed.

(** X4.  A [userId] or [type] that passes validation but does not
    convert to a string (a JSON object with an own [toString] property)
    stops the dispatcher at its first line: the route answers 500
    "Cannot convert object to primitive value", and neither the profile
    store nor the delivery service is called. *)
Theorem post_notifications_send_unprintable srv (m : gmap string json) t :
  let field k := obj_get (VJson <$> m) k in
  truthy (field "userId") && truthy (field "title")
  && truthy (field "body") && truthy (field "type") = true →
  to_string (field "type") = None ∨ to_string (field "userId") = None →
  post_notifications_send srv (VJson (JObj m)) t
    = (Returned
         (res_json 500
            (LObj {[ "error" :=
                       LVal (VStr "Cannot convert object to primitive value")
                  ]})),
       (t ++ [ConsoleError (send_error_text unprintable)])%list).
Proof.
  intros field Hvalid Hopaque.
  rewrite post_notifications_send_run. cbv zeta.
  fold (field "userId") (field "title") (field "body") (field "type")
       (field "data").
  rewrite <- !negb_andb, Hvalid. simpl.
  by rewrite sendNotification_unprintable.
Qed.

Lemma post_notifications_send_unprintable_witness :
  post_notifications_send Sample.delivering
      (VJson (JObj Edge.request_with_opaque_user)) []
    = (Returned
         (res_json 500
            (LObj {[ "error" :=
                       LVal (VStr "Cannot convert object to primitive value")
                  ]})),
       [ConsoleError (send_error_text unprintable)]).
Proof.
  apply (post_notifications_send_unprintable Sample.delivering
           Edge.request_with_opaque_user []).
  - reflexivity.
  - right. reflexivity.
Defined.

(** ** The formatter and the feed *)

(** X12.  The two formatter functions fail on the same inputs, namely
    the categories that do not convert to a string, and what they return
    is never falsy: a feed notification never gets an empty default title
    or body. *)
Theorem formatter_never_empty type :
  (getTitleForType type = None ↔ to_string type = None)
  ∧ (getMessageForType type = None ↔ to_string type = None)
  ∧ (∀ v, getTitleForType type = Some v → truthy v = true)
  ∧ (∀ v, getMessageForType type = Some v → truthy v = true).
Proof.
  unfold getTitleForType, getMessageForType, js_or.
  destruct (to_string type) as [k|]; simpl; split_and!; try done.
  - intros v [= <-]. by destruct (truthy (obj_get titles k)) eqn:E.
  - intros v [= <-]. by destruct (truthy (obj_get messages k)) eqn:E.
Qed.

Lemma or_default_value_truthy a type v :
  (or_default_value a getTitleForType type = Some v → truthy v = true)
  ∧ (or_default_value a getMessageForType type = Some v → truthy v = true).
Proof.
  unfold or_default_value, getTitleForType, getMessageForType, js_or.
  destruct (truthy a) eqn:Ha; split; intros H.
  - by injection H as <-.
  - by injection H as <-.
  - destruct (to_string type) as [k|]; simpl in H; [|done].
    injection H as <-. by destruct (truthy (obj_get titles k)) eqn:E.
  - destruct (to_string type) as [k|]; simpl in H; [|done].
    injection H as <-. by destruct (truthy (obj_get messages k)) eqn:E.
Qed.

(** Every message sent on behalf of a feed event, with the title and the
    body the callback chose for it. *)
Lemma on_insert_sends_chosen srv payload t msg :
  MessagingSend msg ∈ added_events (on_insert srv payload) t →
  ∃ n title' message' fcmToken,
    get_prop payload "new" = Returned n
    ∧ or_default_value (opt_chain n "title") getTitleForType
        (opt_chain n "type") = Some title'
    ∧ or_default_value (opt_chain n "message") getMessageForType
        (opt_chain n "type") = Some message'
    ∧ msg = build_message title' message' (opt_chain n "type")
              (aux_data (opt_chain n "post_id") (opt_chain n "comment_id")
                 (opt_chain n "sender_id")) fcmToken.
Proof.
  unfold added_events. rewrite on_insert_run, on_insert_try_run.
  destruct (get_prop payload "new") as [n|e].
  2:{ simpl. rewrite drop_app_length. intros Hin. sent_among Hin. }
  cbv zeta.
  destruct (destructure "notification" n "user_id") as [u|e].
  2:{ simpl. rewrite <- app_assoc, drop_app_length.
      intros Hin. sent_among Hin. }
  destruct (or_default_value (opt_chain n "title") _ _) as [title'|] eqn:Ht.
  2:{ simpl. rewrite <- app_assoc, drop_app_length.
      intros Hin. sent_among Hin. }
  destruct (or_default_value (opt_chain n "message") _ _) as [message'|]
    eqn:Hm.
  2:{ simpl. rewrite <- app_assoc, drop_app_length.
      intros Hin. sent_among Hin. }
  set (t1 := (t ++ [ConsoleLogValue detected_text n])%list).
  pose proof (sendNotification_extends srv (opt_chain n "user_id") title'
                message' (opt_chain n "type")
                (aux_data (opt_chain n "post_id") (opt_chain n "comment_id")
                   (opt_chain n "sender_id")) t1) as Hext.
  pose proof (sendNotification_sends srv (opt_chain n "user_id") title'
                message' (opt_chain n "type")
                (aux_data (opt_chain n "post_id") (opt_chain n "comment_id")
                   (opt_chain n "sender_id")) t1 msg) as Hsends.
  destruct (sendNotification srv _ _ _ _ _ t1) as [[v|e] t2];
    simpl in Hext; subst t2; subst t1; simpl snd;
    rewrite <- ?app_assoc, drop_app_length; intros Hin.
  - apply elem_of_cons in Hin as [Hin|Hin]; [discriminate|].
    destruct (Hsends Hin) as (tok & _ & ->). by exists n, title', message', tok.
  - apply elem_of_cons in Hin as [Hin|Hin]; [discriminate|].
    apply elem_of_app in Hin as [Hin|Hin]; [|sent_among Hin].
    destruct (Hsends Hin) as (tok & _ & ->). by exists n, title', message', tok.
Qed.

Lemma feed_data_lookup title body type post_id comment_id sender_id :
  let d := message_data title body type
             (aux_data post_id comment_id sender_id) in
  dom d =@{gset string}
    {[ "type"; "title"; "body"; "post_id"; "comment_id"; "sender_id" ]}
  ∧ d !! "type" = Some (LVal type)
  ∧ d !! "title" = Some (LVal title)
  ∧ d !! "body" = Some (LVal body).
Proof.
  intros d. subst d. unfold message_data, aux_data, own_enumerable.
  split_and!; reflexivity.
Qed.

(** X13.  In every message sent for a feed event the [data] mapping has
    exactly the six keys [type], [title], [body], [post_id], [comment_id]
    and [sender_id].  [type] is the event's category; [title] and [body]
    are the event's own title and message when these are truthy and the
    formatter's defaults for the category otherwise; both are truthy.  The
    auxiliary identifiers never replace the three base fields. *)
Theorem on_insert_message_content srv payload t msg :
  MessagingSend msg ∈ added_events (on_insert srv payload) t →
  ∃ (n : value) (fields d : gmap string lit) (title' body' : value),
    get_prop payload "new" = Returned n
    ∧ msg = LObj fields ∧ fields !! "data" = Some (LObj d)
    ∧ dom d =@{gset string}
        {[ "type"; "title"; "body"; "post_id"; "comment_id"; "sender_id" ]}
    ∧ d !! "type" = Some (LVal (opt_chain n "type"))
    ∧ d !! "title" = Some (LVal title')
    ∧ d !! "body" = Some (LVal body')
    ∧ truthy title' = true ∧ truthy body' = true
    ∧ (if truthy (opt_chain n "title") then title' = opt_chain n "title"
       else getTitleForType (opt_chain n "type") = Some title')
    ∧ (if truthy (opt_chain n "message") then body' = opt_chain n "message"
       else getMessageForType (opt_chain n "type") = Some body').
Proof.
  intros Hin.
  destruct (on_insert_sends_chosen _ _ _ _ Hin)
    as (n & title' & message' & tok & Hn & Ht & Hm & ->).
  destruct (feed_data_lookup title' message' (opt_chain n "type")
              (opt_chain n "post_id") (opt_chain n "comment_id")
              (opt_chain n "sender_id")) as (Hdom & Hty & Hti & Hbo).
  eexists n, _, _, title', message'.
  split_and!; try reflexivity; try done.
  - by apply (proj1 (or_default_value_truthy _ _ _) Ht).
  - by apply (proj2 (or_default_value_truthy _ _ _) Hm).
  - unfold or_default_value in Ht.
    destruct (truthy (opt_chain n "title")); congruence.
  - unfold or_default_value in Hm.
    destruct (truthy (opt_chain n "message")); congruence.
Qed.

Lemma on_insert_message_content_witness :
  ∃ (n : value) (fields d : gmap string lit) (title' body' : value),
    get_prop (Sample.insert_of Edge.titled_row) "new" = Returned n
    ∧ build_message (VStr "Custom") (VStr "Text") (VStr "comment")
        (aux_data (VStr "p9") VUndefined VUndefined)
        (VStr "device-token-1") = LObj fields
    ∧ fields !! "data" = Some (LObj d)
    ∧ dom d =@{gset string}
        {[ "type"; "title"; "body"; "post_id"; "comment_id"; "sender_id" ]}
    ∧ d !! "type" = Some (LVal (opt_chain n "type"))
    ∧ d !! "title" = Some (LVal title')
    ∧ d !! "body" = Some (LVal body')
    ∧ truthy title' = true ∧ truthy body' = true
    ∧ (if truthy (opt_chain n "title") then title' = opt_chain n "title"
       else getTitleForType (opt_chain n "type") = Some title')
    ∧ (if truthy (opt_chain n "message") then body' = opt_chain n "message"
       else getMessageForType (opt_chain n "type") = Some body').
Proof.
  apply (on_insert_message_content Sample.delivering
           (Sample.insert_of Edge.titled_row) []).
  apply (list_elem_of_lookup_2 _ 3). vm_compute. reflexivity.
Defined.

(** X14.  A feed event of one of the five categories that brings no
    title and no message of its own is sent with the fixed title and body
    of its category. *)
Theorem on_insert_category_defaults
    srv (p row : gmap string json) c t msg :
  p !! "new" = Some (JObj row) →
  c ∈ categories →
  row !! "type" = Some (JStr c) →
  truthy (obj_get (VJson <$> row) "title") = false →
  truthy (obj_get (VJson <$> row) "message") = false →
  MessagingSend msg ∈ added_events (on_insert srv (VJson (JObj p))) t →
  ∃ (fields d : gmap string lit) (ttl txt : value),
    msg = LObj fields ∧ fields !! "data" = Some (LObj d)
    ∧ titles !! c = Some ttl ∧ messages !! c = Some txt
    ∧ d !! "type" = Some (LVal (VStr c))
    ∧ d !! "title" = Some (LVal ttl)
    ∧ d !! "body" = Some (LVal txt).
Proof.
  intros Hnew Hc Hty Hti Hme Hin.
  destruct (on_insert_sends_chosen _ _ _ _ Hin)
    as (n & title' & message' & tok & Hn & Ht & Hm & ->).
  assert (n = VJson (JObj row)) as ->.
  { simpl in Hn. rewrite (present_field _ _ _ Hnew) in Hn. congruence. }
  change (opt_chain (VJson (JObj row)) ?k)
    with (obj_get (VJson <$> row) k) in *.
  unfold or_default_value in Ht, Hm. rewrite Hti in Ht. rewrite Hme in Hm.
  rewrite (present_field _ _ _ Hty) in *.
  destruct (feed_data_lookup title' message' (VStr c)
              (obj_get (VJson <$> row) "post_id")
              (obj_get (VJson <$> row) "comment_id")
              (obj_get (VJson <$> row) "sender_id")) as (_ & Hdty & Hdti & Hdbo).
  eexists _, _, title', message'.
  split_and!; try reflexivity; try done.
  - unfold categories in Hc.
    repeat (apply elem_of_cons in Hc as [->|Hc];
            [vm_compute in Ht; by injection Ht as <-|]).
    by apply elem_of_nil in Hc.
  - unfold categories in Hc.
    repeat (apply elem_of_cons in Hc as [->|Hc];
            [vm_compute in Hm; by injection Hm as <-|]).
    by apply elem_of_nil in Hc.
Qed.

Lemma on_insert_category_defaults_witness :
  ∃ (fields d : gmap string lit) (ttl txt : value),
    build_message (VStr "💬 New Comment")
      (VStr "Someone commented on your post") (VStr "comment")
      (aux_data VUndefined VUndefined VUndefined) (VStr "device-token-1")
    = LObj fields
    ∧ fields !! "data" = Some (LObj d)
    ∧ titles !! "comment" = Some ttl ∧ messages !! "comment" = Some txt
    ∧ d !! "type" = Some (LVal (VStr "comment"))
    ∧ d !! "title" = Some (LVal ttl)
    ∧ d !! "body" = Some (LVal txt).
Proof.
  apply (on_insert_category_defaults Sample.delivering
           {[ "new" := JObj Edge.comment_row ]} Edge.comment_row
           "comment" []).
  - reflexivity.
  - apply (list_elem_of_lookup_2 _ 1). reflexivity.
  - reflexivity.
  - reflexivity.
  - reflexivity.
  - apply (list_elem_of_lookup_2 _ 3). vm_compute. reflexivity.
Defined.

(** X15.  A feed payload that carries no row under [new] (the payload or
    its [new] is [undefined] or [null], or the payload is not an object)
    is dropped: the callback prints the error and returns, and neither
    the profile store nor the delivery service is called. *)
Theorem on_insert_without_row srv payload t :
  opt_chain payload "new" = VUndefined ∨ opt_chain payload "new" = VNull →
  ∃ added e,
    on_insert srv payload t = (Returned (), (t ++ added)%list)
    ∧ last added = Some (ConsoleErrorWith processing_error_text e)
    ∧ count_lookups added = 0 ∧ count_sends added = 0.
Proof.
  intros Hrow. rewrite on_insert_run, on_insert_try_run.
  unfold opt_chain in Hrow.
  destruct (get_prop payload "new") as [n|e].
  - cbv zeta.
    assert (∃ e, destructure "notification" n "user_id" = Thrown e)
      as [e ->] by (destruct Hrow as [-> | ->]; simpl; eauto).
    eexists [_; _], e. rewrite <- app_assoc. by split_and!.
  - eexists [_], e. by split_and!.
Qed.

Lemma on_insert_without_row_witness :
  ∃ added e,
    on_insert Sample.delivering (VJson (JObj ∅)) []
      = (Returned (), ([] ++ added)%list)
    ∧ last added = Some (ConsoleErrorWith processing_error_text e)
    ∧ count_lookups added = 0 ∧ count_sends added = 0.
Proof.
  apply (on_insert_without_row Sample.delivering (VJson (JObj ∅)) []).
  left. reflexivity.
Defined.

(** ** The feed as a whole *)

Lemma count_app l1 l2 :
  count_sends (l1 ++ l2) = count_sends l1 + count_sends l2
  ∧ count_lookups (l1 ++ l2) = count_lookups l1 + count_lookups l2.
Proof.
  unfold count_sends, count_lookups. by rewrite !filter_app, !length_app.
Qed.

(** One feed event costs at most one profile query and one delivery
    call. *)
Lemma on_insert_bounds srv payload t :
  ∃ added,
    snd (on_insert srv payload t) = (t ++ added)%list
    ∧ (count_lookups added ≤ 1)%nat
    ∧ (count_sends added ≤ count_lookups added)%nat.
Proof.
  rewrite on_insert_run, on_insert_try_run.
  destruct (get_prop payload "new") as [n|e].
  2:{ eexists [_]. split_and!; [done | cbv; lia | cbv; lia]. }
  cbv zeta.
  destruct (destructure "notification" n "user_id") as [u|e].
  2:{ eexists [_; _]. rewrite <- app_assoc.
      split_and!; [done | cbv; lia | cbv; lia]. }
  destruct (or_default_value (opt_chain n "title") _ _) as [title'|].
  2:{ eexists [_; _]. rewrite <- app_assoc.
      split_and!; [done | cbv; lia | cbv; lia]. }
  destruct (or_default_value (opt_chain n "message") _ _) as [message'|].
  2:{ eexists [_; _]. rewrite <- app_assoc.
      split_and!; [done | cbv; lia | cbv; lia]. }
  set (t1 := (t ++ [ConsoleLogValue detected_text n])%list).
  set (call := sendNotification srv _ _ _ _ _).
  pose proof (sendNotification_extends srv (opt_chain n "user_id") title'
                message' (opt_chain n "type")
                (aux_data (opt_chain n "post_id") (opt_chain n "comment_id")
                   (opt_chain n "sender_id")) t1) as Hext.
  pose proof (sendNotification_events srv (opt_chain n "user_id") title'
                message' (opt_chain n "type")
                (aux_data (opt_chain n "post_id") (opt_chain n "comment_id")
                   (opt_chain n "sender_id")) t1) as Hshape.
  fold call in Hext, Hshape.
  destruct (dispatch_events_counts _ _ Hshape) as [Hs Hl].
  destruct (call t1) as [[v|e] t2]; simpl in Hext; subst t2 t1; simpl snd.
  - exists (ConsoleLogValue detected_text n :: added_events call
              (t ++ [ConsoleLogValue detected_text n])%list).
    split_and!; [by rewrite <- app_assoc | done | done].
  - exists (ConsoleLogValue detected_text n
            :: added_events call (t ++ [ConsoleLogValue detected_text n])%list
            ++ [ConsoleErrorWith processing_error_text e]).
    destruct (count_app
                (added_events call
                   (t ++ [ConsoleLogValue detected_text n])%list)
                [ConsoleErrorWith processing_error_text e]) as [Hcs Hcl].
    split_and!.
    + by rewrite <- !app_assoc.
    + change (count_lookups (ConsoleLogValue ?x ?y :: ?l))
        with (count_lookups l). rewrite Hcl.
      change (count_lookups [ConsoleErrorWith ?x ?y]) with 0. lia.
    + change (count_lookups (ConsoleLogValue ?x ?y :: ?l))
        with (count_lookups l).
      change (count_sends (ConsoleLogValue ?x ?y :: ?l))
        with (count_sends l). rewrite Hcs, Hcl.
      change (count_lookups [ConsoleErrorWith ?x ?y]) with 0.
      change (count_sends [ConsoleErrorWith ?x ?y]) with 0. lia.
Qed.

Lemma deliver_bounds srv payloads t :
  ∃ added,
    snd (deliver srv payloads t) = (t ++ added)%list
    ∧ (count_lookups added ≤ length payloads)%nat
    ∧ (count_sends added ≤ count_lookups added)%nat.
Proof.
  revert t. induction payloads as [|p ps IH]; intros t.
  - exists []. rewrite app_nil_r. split_and!; [done | cbv; lia | cbv; lia].
  - rewrite deliver_cons.
    destruct (on_insert_bounds srv p t) as (a1 & -> & Hl1 & Hs1).
    destruct (IH (t ++ a1)%list) as (a2 & -> & Hl2 & Hs2).
    exists (a1 ++ a2)%list. destruct (count_app a1 a2) as [-> ->].
    split_and!; [by rewrite app_assoc | simpl; lia | lia].
Qed.

(** X16.  Started on any feed, [startListeningToNotifications] prints
    its first line, subscribes once to INSERT on [public.notifications],
    prints its second line, and then never ends with an exception however
    the events fare; all the events of the feed together cost at most one
    profile query per event, and no more delivery calls than profile
    queries. *)
Theorem startListeningToNotifications_bounds srv payloads t :
  ∃ added,
    startListeningToNotifications srv payloads t
      = (Returned (),
         (t ++ [ConsoleLog "🔔 Starting notification listener...";
                Subscribe "public:notifications" "INSERT" "public"
                  "notifications";
                ConsoleLog "✅ Notification listener started successfully"]
            ++ added)%list)
    ∧ (count_lookups added ≤ length payloads)%nat
    ∧ (count_sends added ≤ count_lookups added)%nat.
Proof.
  rewrite startListeningToNotifications_run.
  set (t0 := (t ++ _)%list).
  destruct (deliver_bounds srv payloads t0) as (added & Hsnd & Hl & Hs).
  exists added. split_and!; [|done|done].
  pose proof (deliver_returns srv payloads t0) as Hfst.
  destruct (deliver srv payloads t0) as [r t']. simpl in Hfst, Hsnd.
  subst r t'. unfold t0. by rewrite <- app_assoc.
Qed.

(** ** Whose token is asked for *)

Lemma dispatch_events_lookup userId l u :
  dispatch_events userId l → SelectFcmToken u ∈ l → u = userId.
Proof. intros [] Hin; sent_among Hin; done. Qed.

(** X17.  The only profile the callback of the feed ever asks for is the
    one of the event's [user_id]. *)
Theorem on_insert_lookup_target srv payload t u :
  SelectFcmToken u ∈ added_events (on_insert srv payload) t →
  ∃ n, get_prop payload "new" = Returned n ∧ u = opt_chain n "user_id".
Proof.
  unfold added_events. rewrite on_insert_run, on_insert_try_run.
  destruct (get_prop payload "new") as [n|e].
  2:{ simpl. rewrite drop_app_length. intros Hin. sent_among Hin. }
  cbv zeta.
  destruct (destructure "notification" n "user_id") as [u0|e].
  2:{ simpl. rewrite <- app_assoc, drop_app_length.
      intros Hin. sent_among Hin. }
  destruct (or_default_value (opt_chain n "title") _ _) as [title'|].
  2:{ simpl. rewrite <- app_assoc, drop_app_length.
      intros Hin. sent_among Hin. }
  destruct (or_default_value (opt_chain n "message") _ _) as [message'|].
  2:{ simpl. rewrite <- app_assoc, drop_app_length.
      intros Hin. sent_among Hin. }
  set (t1 := (t ++ [ConsoleLogValue detected_text n])%list).
  set (call := sendNotification srv _ _ _ _ _).
  pose proof (sendNotification_extends srv (opt_chain n "user_id") title'
                message' (opt_chain n "type")
                (aux_data (opt_chain n "post_id") (opt_chain n "comment_id")
                   (opt_chain n "sender_id")) t1) as Hext.
  pose proof (sendNotification_events srv (opt_chain n "user_id") title'
                message' (opt_chain n "type")
                (aux_data (opt_chain n "post_id") (opt_chain n "comment_id")
                   (opt_chain n "sender_id")) t1) as Hshape.
  fold call in Hext, Hshape.
  destruct (call t1) as [[v|e] t2]; simpl in Hext; subst t2; subst t1;
    simpl snd; rewrite <- ?app_assoc, drop_app_length; intros Hin;
    exists n; (split; [done|]).
  - apply elem_of_cons in Hin as [Hin|Hin]; [discriminate|].
    by apply (dispatch_events_lookup _ _ _ Hshape).
  - apply elem_of_cons in Hin as [Hin|Hin]; [discriminate|].
    apply elem_of_app in Hin as [Hin|Hin]; [|sent_among Hin].
    by apply (dispatch_events_lookup _ _ _ Hshape).
Qed.

Lemma on_insert_lookup_target_witness :
  ∃ n, get_prop (Sample.insert_of Sample.like_row) "new" = Returned n
       ∧ VStr "u1" = opt_chain n "user_id".
Proof.
  apply (on_insert_lookup_target Sample.delivering
           (Sample.insert_of Sample.like_row) []).
  apply (list_elem_of_lookup_2 _ 2). vm_compute. reflexivity.
Defined.

(** X18.  On a JSON-object body the route asks the profile store only
    for the [userId] of the body, and only when the four required fields
    passed validation. *)
Theorem post_notifications_send_lookup_target
    srv (m : gmap string json) t u :
  let field k := obj_get (VJson <$> m) k in
  SelectFcmToken u
    ∈ added_events (post_notifications_send srv (VJson (JObj m))) t →
  u = field "userId"
  ∧ truthy (field "userId") && truthy (field "title")
    && truthy (field "body") && truthy (field "type") = true.
Proof.
  intros field. unfold added_events.
  rewrite post_notifications_send_run. cbv zeta.
  fold (field "userId") (field "title") (field "body") (field "type")
       (field "data").
  rewrite <- !negb_andb.
  destruct (truthy (field "userId") && truthy (field "title")
            && truthy (field "body") && truthy (field "type")); simpl.
  2:{ rewrite drop_all. intros Hin. sent_among Hin. }
  set (call := sendNotification srv _ _ _ _ _).
  pose proof (sendNotification_events srv (field "userId") (field "title")
                (field "body") (field "type") (LVal (field "data")) t)
    as Hshape.
  fold call in Hshape. unfold added_events in Hshape.
  destruct (call t) as [[v|e] t']; simpl in *; intros Hin;
    (split; [|done]); by apply (dispatch_events_lookup _ _ _ Hshape).
Qed.

Lemma post_notifications_send_lookup_target_witness :
  VStr "u1" = obj_get (VJson <$> Sample.full_request) "userId"
  ∧ truthy (obj_get (VJson <$> Sample.full_request) "userId")
    && truthy (obj_get (VJson <$> Sample.full_request) "title")
    && truthy (obj_get (VJson <$> Sample.full_request) "body")
    && truthy (obj_get (VJson <$> Sample.full_request) "type") = true.
Proof.
  apply (post_notifications_send_lookup_target Sample.delivering
           Sample.full_request [] (VStr "u1")).
  apply (list_elem_of_lookup_2 _ 1). vm_compute. reflexivity.
Defined.
